(** * threadmill: the pace simulator of [src/components/ClickChart.tsx]

    A shallow embedding of the [ClickChart] React component: its state
    variables, the interval callback that advances the run, the effect that
    recomputes the two estimators, and the handlers bound to the controls.

    The component is embedded twice, over two models of JavaScript
    numbers.  In module [JS] a number is an exact rational or [NaN]: it
    carries the statements that rest on the order of numbers, on the
    propagation of [NaN] and on the shape of the state, none of which
    rounding affects.  In module [B64] a number is an IEEE 754 double with
    correctly rounded operations: it carries every statement that depends
    on a computed value.  [NaN] is kept in both because the two text
    inputs feed [parseInt] and [parseFloat] results straight into the
    state. *)

From Stdlib Require Import ZArith QArith Qcanon Qround List String Ascii Bool Lia.
From Stdlib Require Import Sorted SpecFloat DecimalString.
Import ListNotations.

(** ** JavaScript numbers *)

Module JS.

Inductive number : Type :=
| NaN
| Num (q : Qc).

Definition ofZ (z : Z) : Qc := Q2Qc (inject_Z z).
Definition lit (z : Z) : number := Num (ofZ z).

(** Decimal literals of the source: [0.1] is [dec 1 10]. *)
Definition dec (n : Z) (d : positive) : number := Num (Q2Qc (n # d)).

Definition lift2 (f : Qc -> Qc -> Qc) (a b : number) : number :=
  match a, b with
  | Num x, Num y => Num (f x y)
  | _, _ => NaN
  end.

Definition add : number -> number -> number := lift2 Qcplus.
Definition sub : number -> number -> number := lift2 Qcminus.
Definition mul : number -> number -> number := lift2 Qcmult.

(** [a / b].  The component divides by the literal 3600 and by two
    quantities it has just tested to be [> 0]; a zero divisor (which in
    JavaScript gives an infinity or [NaN]) is therefore never met, and is
    mapped to [NaN] here. *)
Definition div (a b : number) : number :=
  match a, b with
  | Num x, Num y => if Qc_eq_bool y (ofZ 0) then NaN else Num (Qcdiv x y)
  | _, _ => NaN
  end.

(** [a > b]: false as soon as one side is [NaN]. *)
Definition gt (a b : number) : bool :=
  match a, b with
  | Num x, Num y => match Qccompare x y with Gt => true | _ => false end
  | _, _ => false
  end.

(** [a < b]. *)
Definition lt (a b : number) : bool := gt b a.

(** [a <= b], with the same treatment of [NaN]; the source never uses it,
    the statements about the estimators do. *)
Definition le (a b : number) : bool :=
  match a, b with
  | Num x, Num y => match Qccompare x y with Gt => false | _ => true end
  | _, _ => false
  end.

(** [Math.max(a, b)]: [NaN] if either argument is. *)
Definition Math_max (a b : number) : number :=
  match a, b with
  | Num x, Num y => if gt a b then a else b
  | _, _ => NaN
  end.

(** [Math.round(a)]: the nearest integer, ties towards plus infinity. *)
Definition Math_round (a : number) : number :=
  match a with
  | Num x => Num (ofZ (Qfloor (this x + (1 # 2))))
  | NaN => NaN
  end.

Definition isNaN (a : number) : bool :=
  match a with NaN => true | Num _ => false end.

(** Equality test used to evaluate examples. *)
Definition number_eqb (a b : number) : bool :=
  match a, b with
  | NaN, NaN => true
  | Num x, Num y => Qc_eq_bool x y
  | _, _ => false
  end.

(** *** [parseInt] and [parseFloat] on the text of an input field *)

Definition is_space (c : ascii) : bool :=
  let n := nat_of_ascii c in
  ((9 <=? n) && (n <=? 13) || (n =? 32))%nat.

Fixpoint skip_ws (cs : list ascii) : list ascii :=
  match cs with
  | c :: t => if is_space c then skip_ws t else cs
  | [] => []
  end.

(** An optional sign: [true] for a leading minus. *)
Definition sign (cs : list ascii) : bool * list ascii :=
  match cs with
  | "-"%char :: t => (true, t)
  | "+"%char :: t => (false, t)
  | _ => (false, cs)
  end.

Definition digit_value (c : ascii) : option Z :=
  let n := Z.of_nat (nat_of_ascii c) in
  if ((48 <=? n) && (n <=? 57))%Z then Some (n - 48)%Z
  else if ((97 <=? n) && (n <=? 102))%Z then Some (n - 87)%Z
  else if ((65 <=? n) && (n <=? 70))%Z then Some (n - 55)%Z
  else None.

(** The longest prefix of digits in the given radix, as digit values. *)
Fixpoint take_digits (radix : Z) (cs : list ascii) : list Z * list ascii :=
  match cs with
  | c :: t =>
      match digit_value c with
      | Some d =>
          if (d <? radix)%Z
          then let (ds, r) := take_digits radix t in (d :: ds, r)
          else ([], cs)
      | None => ([], cs)
      end
  | [] => ([], [])
  end.

Definition digits_value (radix : Z) (ds : list Z) : Z :=
  fold_left (fun acc d => acc * radix + d)%Z ds 0%Z.

Definition signed (neg : bool) (z : Z) : Z := if neg then (- z)%Z else z.

(** [parseInt(s)] with no radix argument. *)
Definition parseInt (s : string) : number :=
  let (neg, cs) := sign (skip_ws (list_ascii_of_string s)) in
  let (radix, cs') :=
    match cs with
    | "0"%char :: "x"%char :: t => (16%Z, t)
    | "0"%char :: "X"%char :: t => (16%Z, t)
    | _ => (10%Z, cs)
    end in
  match fst (take_digits radix cs') with
  | [] => NaN
  | ds => lit (signed neg (digits_value radix ds))
  end.

(** The exponent part [e[+-]digits], 0 when it is absent or incomplete. *)
Definition exponent (cs : list ascii) : Z :=
  let body t :=
    let (neg, t') := sign t in
    match fst (take_digits 10 t') with
    | [] => 0%Z
    | ds => signed neg (digits_value 10 ds)
    end in
  match cs with
  | "e"%char :: t => body t
  | "E"%char :: t => body t
  | _ => 0%Z
  end.

(** [parseFloat(s)] on decimal text.  The literal [Infinity], which a
    number input never delivers, is not recognised. *)
Definition parseFloat (s : string) : number :=
  let (neg, cs) := sign (skip_ws (list_ascii_of_string s)) in
  let (ip, r1) := take_digits 10 cs in
  let (fp, r2) :=
    match r1 with
    | "."%char :: t => take_digits 10 t
    | _ => ([], r1)
    end in
  match ip ++ fp with
  | [] => NaN
  | ds =>
      let m := inject_Z (signed neg (digits_value 10 ds)) in
      let e := (exponent r2 - Z.of_nat (List.length fp))%Z in
      Num (Q2Qc (m * Qpower (10 # 1) e))
  end.

End JS.

Import JS.

Declare Scope js_scope.
Delimit Scope js_scope with js.
Bind Scope js_scope with number.
Infix "+" := add : js_scope.
Infix "-" := sub : js_scope.
Infix "*" := mul : js_scope.
Infix "/" := div : js_scope.
Infix ">?" := gt (at level 70, no associativity) : js_scope.
Infix "<=?" := le (at level 70, no associativity) : js_scope.
Infix "<?" := lt (at level 70, no associativity) : js_scope.


(** ** The component state *)

(** [interface ChartDataPoint] *)
Module ChartDataPoint.
Record t : Type := mk {
  time : number;
  distance : number;
  reference : number
}.
End ChartDataPoint.
Abbreviation ChartDataPoint := ChartDataPoint.t.

(** The nine [useState] cells of [ClickChart]. *)
Record State : Type := mkState {
  isRunning : bool;
  speed : number;
  referenceSpeed : number;
  time : number;
  distance : number;
  chartData : list ChartDataPoint;
  catchUpTime : option number;
  targetTime : number;
  requiredSpeed : option number
}.

(** The setters, applied to an updater function as React does. *)
Definition setIsRunning (b : bool) (s : State) : State :=
  mkState b (speed s) (referenceSpeed s) (time s) (distance s) (chartData s)
          (catchUpTime s) (targetTime s) (requiredSpeed s).
Definition setSpeed (f : number -> number) (s : State) : State :=
  mkState (isRunning s) (f (speed s)) (referenceSpeed s) (time s) (distance s)
          (chartData s) (catchUpTime s) (targetTime s) (requiredSpeed s).
Definition setReferenceSpeed (f : number -> number) (s : State) : State :=
  mkState (isRunning s) (speed s) (f (referenceSpeed s)) (time s) (distance s)
          (chartData s) (catchUpTime s) (targetTime s) (requiredSpeed s).
Definition setTime (f : number -> number) (s : State) : State :=
  mkState (isRunning s) (speed s) (referenceSpeed s) (f (time s)) (distance s)
          (chartData s) (catchUpTime s) (targetTime s) (requiredSpeed s).
Definition setDistance (f : number -> number) (s : State) : State :=
  mkState (isRunning s) (speed s) (referenceSpeed s) (time s) (f (distance s))
          (chartData s) (catchUpTime s) (targetTime s) (requiredSpeed s).
Definition setChartData (f : list ChartDataPoint -> list ChartDataPoint)
           (s : State) : State :=
  mkState (isRunning s) (speed s) (referenceSpeed s) (time s) (distance s)
          (f (chartData s)) (catchUpTime s) (targetTime s) (requiredSpeed s).
Definition setCatchUpTime (v : option number) (s : State) : State :=
  mkState (isRunning s) (speed s) (referenceSpeed s) (time s) (distance s)
          (chartData s) v (targetTime s) (requiredSpeed s).
Definition setTargetTime (f : number -> number) (s : State) : State :=
  mkState (isRunning s) (speed s) (referenceSpeed s) (time s) (distance s)
          (chartData s) (catchUpTime s) (f (targetTime s)) (requiredSpeed s).
Definition setRequiredSpeed (v : option number) (s : State) : State :=
  mkState (isRunning s) (speed s) (referenceSpeed s) (time s) (distance s)
          (chartData s) (catchUpTime s) (targetTime s) v.

(** The seed sample of the history and the initial values of the cells. *)
Definition seed : ChartDataPoint :=
  ChartDataPoint.mk (lit 0) (lit 0) (lit 0).

Definition initialState : State :=
  {| isRunning := false;
     speed := lit 5;
     referenceSpeed := lit 6;
     time := lit 0;
     distance := lit 0;
     chartData := [seed];
     catchUpTime := None;
     targetTime := lit 3600;
     requiredSpeed := None |}.

(** ** The tick: first [useEffect] *)

(** What the interval callback closes over: the values of the render that
    installed it. *)
Record Captured : Type := mkCaptured {
  cap_speed : number;
  cap_time : number;
  cap_distance : number;
  cap_referenceSpeed : number
}.

Definition capture (s : State) : Captured :=
  mkCaptured (speed s) (time s) (distance s) (referenceSpeed s).

(** The body of the [setInterval] callback: two functional updates of the
    scalars, and an append whose sample is built from the captured values. *)
Definition intervalCallback (c : Captured) (s : State) : State :=
  let s1 := setTime (fun prevTime => prevTime + lit 1)%js s in
  let s2 := setDistance
              (fun prevDistance => prevDistance + cap_speed c / lit 3600)%js s1 in
  setChartData
    (fun prevData =>
       prevData ++
       [ChartDataPoint.mk
          (cap_time c + lit 1)%js
          (cap_distance c + cap_speed c / lit 3600)%js
          ((cap_time c + lit 1) * cap_referenceSpeed c / lit 3600)%js])
    s2.

(** The effect installs an interval only while [isRunning]; its dependency
    list names every captured variable, so the callback that fires always
    carries the values of the latest render. *)
Definition interval (s : State) : option (State -> State) :=
  if isRunning s then Some (intervalCallback (capture s)) else None.

(** ** The estimators: second [useEffect] *)

(** Reading a property of [undefined] throws. *)
Inductive result (A : Type) : Type :=
| Ok (a : A)
| TypeError.
Arguments Ok {A} a.
Arguments TypeError {A}.

Definition bind {A B : Type} (r : result A) (k : A -> result B) : result B :=
  match r with
  | Ok a => k a
  | TypeError => TypeError
  end.
Notation "x <- r ;; k" := (bind r (fun x => k))
  (at level 61, r at next level, right associativity).

(** [chartData[chartData.length - 1]], then a field of it. *)
Definition latest (data : list ChartDataPoint) : result ChartDataPoint :=
  match nth_error data (List.length data - 1) with
  | Some p => Ok p
  | None => TypeError
  end.

(** Lines 173-180. *)
Definition catchUpEstimator (s : State) : result (option number) :=
  if (speed s >? referenceSpeed s)%js then
    p <- latest (chartData s) ;;
    let distanceDiff := (ChartDataPoint.reference p - ChartDataPoint.distance p)%js in
    let speedDiff := (speed s - referenceSpeed s)%js in
    let catchUpTimeSeconds := Math_round ((distanceDiff / speedDiff) * lit 3600)%js in
    Ok (Some (if (catchUpTimeSeconds >? lit 0)%js then catchUpTimeSeconds else lit 0))
  else Ok None.

(** Lines 182-189. *)
Definition requiredSpeedEstimator (s : State) : option number :=
  let remainingTime := (targetTime s - time s)%js in
  if (remainingTime >? lit 0)%js then
    let distanceToGo := ((referenceSpeed s * targetTime s / lit 3600) - distance s)%js in
    let requiredSpeedValue := ((distanceToGo / remainingTime) * lit 3600)%js in
    if (requiredSpeedValue >? lit 0)%js then Some requiredSpeedValue else None
  else None.

Definition estimatorEffect (s : State) : result State :=
  c <- catchUpEstimator s ;;
  Ok (setRequiredSpeed (requiredSpeedEstimator s) (setCatchUpTime c s)).

(** ** The handlers and the controls bound to them *)

Definition handleStart : State -> State := setIsRunning true.
Definition handleStop : State -> State := setIsRunning false.
Definition handleSpeedChange (change : number) : State -> State :=
  setSpeed (fun prevSpeed => Math_max (lit 0) (prevSpeed + change)%js).
Definition handleReferenceSpeedChange (change : number) : State -> State :=
  setReferenceSpeed (fun prevSpeed => Math_max (lit 0) (prevSpeed + change)%js).

(** The two buttons and the input of the target-time row. *)
Definition targetMinus : State -> State :=
  setTargetTime (fun prev => Math_max (lit 60) (prev - lit 60)%js).
Definition targetPlus : State -> State :=
  setTargetTime (fun prev => (prev + lit 60)%js).
Definition targetChange (value : string) : State -> State :=
  setTargetTime (fun _ => (parseInt value * lit 60)%js).

(** The input of the reference-speed row. *)
Definition referenceChange (value : string) : State -> State :=
  setReferenceSpeed (fun _ => parseFloat value).

(** Everything that can happen to a mounted component. *)
Inductive event : Type :=
| Tick
| ClickStartStop
| ClickSpeedMinus
| ClickSpeedPlus
| ClickTargetMinus
| ChangeTarget (value : string)
| ClickTargetPlus
| ClickReferenceMinus
| ChangeReference (value : string)
| ClickReferencePlus.

(** The state update an event schedules. *)
Definition handler (e : event) (s : State) : State :=
  match e with
  | Tick => match interval s with Some callback => callback s | None => s end
  | ClickStartStop => if isRunning s then handleStop s else handleStart s
  | ClickSpeedMinus => handleSpeedChange (dec (-1) 10) s
  | ClickSpeedPlus => handleSpeedChange (dec 1 10) s
  | ClickTargetMinus => targetMinus s
  | ChangeTarget value => targetChange value s
  | ClickTargetPlus => targetPlus s
  | ClickReferenceMinus => handleReferenceSpeedChange (dec (-1) 10) s
  | ChangeReference value => referenceChange value s
  | ClickReferencePlus => handleReferenceSpeedChange (dec 1 10) s
  end.

(** One event followed by the render it causes and that render's effects. *)
Definition dispatch (e : event) (s : State) : result State :=
  estimatorEffect (handler e s).

Fixpoint run (es : list event) (s : State) : result State :=
  match es with
  | [] => Ok s
  | e :: es' => s' <- dispatch e s ;; run es' s'
  end.

(** Mounting runs the effects once on the initial values. *)
Definition mount : result State := estimatorEffect initialState.

(** The states a session can be in. *)
Inductive reachable : State -> Prop :=
| reachable_mount : forall s, mount = Ok s -> reachable s
| reachable_dispatch : forall e s s',
    reachable s -> dispatch e s = Ok s' -> reachable s'.

Definition ticks (n : nat) : list event := repeat Tick n.


(** Closed states for examples: the state after mounting and a list of
    events. *)
Definition mounted : State :=
  setRequiredSpeed (requiredSpeedEstimator initialState)
                   (setCatchUpTime None initialState).

Definition stateAfter (es : list event) : State :=
  match run es mounted with
  | Ok s => s
  | TypeError => mounted
  end.

(** ** What the component renders *)

(** [Math.max(...xs)]: minus infinity on no argument at all. *)
Inductive spreadMax : Type :=
| NegInfinity
| Max (m : number).

Fixpoint Math_max_spread (xs : list number) : spreadMax :=
  match xs with
  | [] => NegInfinity
  | x :: xs' =>
      match Math_max_spread xs' with
      | NegInfinity => Max x
      | Max m => Max (Math_max x m)
      end
  end.

(** Line 46: the upper end of the chart's distance axis. *)
Definition maxDistance (data : list ChartDataPoint) : spreadMax :=
  Math_max_spread
    (map (fun d => Math_max (ChartDataPoint.distance d)
                            (ChartDataPoint.reference d)) data).

(** ** The same component over binary64

    The statements that depend on how JavaScript rounds are made over this
    second embedding, in which a number is an IEEE 754 double: the
    [spec_float] of the standard library at precision 53 and maximal
    exponent 1024, with its correctly rounded operations.  Handlers and
    effects are those of the component, line for line. *)

Module B64.

Definition prec : Z := 53.
Definition emax : Z := 1024.

Definition number : Type := spec_float.

Definition NaN : number := S754_nan.
Definition Infinity : number := S754_infinity false.

Definition add : number -> number -> number := SFadd prec emax.
Definition sub : number -> number -> number := SFsub prec emax.
Definition mul : number -> number -> number := SFmul prec emax.
Definition div : number -> number -> number := SFdiv prec emax.
Definition neg : number -> number := SFopp.

(** [a > b], [a < b], [a <= b]: false as soon as one side is [NaN]. *)
Definition gt (a b : number) : bool := SFltb b a.
Definition lt (a b : number) : bool := SFltb a b.
Definition le (a b : number) : bool := SFleb a b.

Definition isNaN (a : number) : bool :=
  match a with S754_nan => true | _ => false end.

(** The double nearest to an integer (ties to even, infinity on
    overflow); integer literals of the source are below 2^53 and exact. *)
Definition ofZ (z : Z) : number := binary_normalize prec emax z 0 false.
Definition lit (z : Z) : number := ofZ z.

(** The double nearest to [M * 10^E] for a natural number [M], rounded
    once: a decimal literal or a decimal text. *)
Definition ofDecimal (M E : Z) : number :=
  match E with
  | Zneg k =>
      match M with
      | Zpos m =>
          SFdiv prec emax (S754_finite false m 0)
                (S754_finite false (Z.to_pos (10 ^ Zpos k)) 0)
      | _ => S754_zero false
      end
  | _ => ofZ (M * 10 ^ E)
  end.

(** [Math.max(a, b)]: [NaN] if either argument is, and the positive zero
    of two zeros. *)
Definition Math_max (a b : number) : number :=
  match SFcompare a b with
  | None => NaN
  | Some Lt => b
  | Some Gt => a
  | Some Eq => match a with S754_zero true => b | _ => a end
  end.

(** The double that equals an integer below 2^53 in magnitude, built
    directly: the mantissa shifted up to 53 bits. *)
Definition ofInt (z : Z) : number :=
  let build (s : bool) (p : positive) : number :=
    let d := Zpos (digits2_pos p) in
    if (d <? 53)%Z
    then S754_finite s (Pos.iter xO p (Z.to_pos (53 - d))) (d - 53)
    else S754_finite s p 0 in
  match z with
  | Z0 => S754_zero false
  | Zpos p => build false p
  | Zneg p => build true p
  end.

(** [Math.round(a)]: [a] itself when it is not finite or is integral,
    otherwise the integer nearest to it, ties towards plus infinity, and a
    zero of the sign of [a] when that integer is 0.  A finite double with
    a negative exponent is below 2^52 in magnitude, so the integer is
    exact. *)
Definition Math_round (a : number) : number :=
  match a with
  | S754_finite s m e =>
      if (0 <=? e)%Z then a
      else
        let k := (- e)%Z in
        let n := if s then Zneg m else Zpos m in
        let z := ((2 * n + 2 ^ k) / 2 ^ (k + 1))%Z in
        if (z =? 0)%Z then S754_zero s else ofInt z
  | _ => a
  end.


(** [parseInt(s)] with no radix argument. *)
Definition parseInt (s : string) : number :=
  let (neg, cs) := JS.sign (JS.skip_ws (list_ascii_of_string s)) in
  let (radix, cs') :=
    match cs with
    | "0"%char :: "x"%char :: t => (16%Z, t)
    | "0"%char :: "X"%char :: t => (16%Z, t)
    | _ => (10%Z, cs)
    end in
  match fst (JS.take_digits radix cs') with
  | [] => NaN
  | ds =>
      let n := ofZ (JS.digits_value radix ds) in
      if neg then SFopp n else n
  end.

(** [parseFloat(s)]. *)
Definition parseFloat (s : string) : number :=
  let (neg, cs) := JS.sign (JS.skip_ws (list_ascii_of_string s)) in
  let signed (n : number) := if neg then SFopp n else n in
  match cs with
  | "I"%char :: "n"%char :: "f"%char :: "i"%char :: "n"%char :: "i"%char
    :: "t"%char :: "y"%char :: _ => signed Infinity
  | _ =>
      let (ip, r1) := JS.take_digits 10 cs in
      let (fp, r2) :=
        match r1 with
        | "."%char :: t => JS.take_digits 10 t
        | _ => ([], r1)
        end in
      match ip ++ fp with
      | [] => NaN
      | ds =>
          signed (ofDecimal (JS.digits_value 10 ds)
                            (JS.exponent r2 - Z.of_nat (List.length fp)))
      end
  end.

(** [interface ChartDataPoint] *)
Module ChartDataPoint.
Record t : Type := mk {
  time : number;
  distance : number;
  reference : number
}.
End ChartDataPoint.

(** The nine [useState] cells. *)
Record State : Type := mkState {
  isRunning : bool;
  speed : number;
  referenceSpeed : number;
  time : number;
  distance : number;
  chartData : list ChartDataPoint.t;
  catchUpTime : option number;
  targetTime : number;
  requiredSpeed : option number
}.

Definition setIsRunning (b : bool) (s : State) : State :=
  mkState b (speed s) (referenceSpeed s) (time s) (distance s) (chartData s)
          (catchUpTime s) (targetTime s) (requiredSpeed s).
Definition setSpeed (f : number -> number) (s : State) : State :=
  mkState (isRunning s) (f (speed s)) (referenceSpeed s) (time s) (distance s)
          (chartData s) (catchUpTime s) (targetTime s) (requiredSpeed s).
Definition setReferenceSpeed (f : number -> number) (s : State) : State :=
  mkState (isRunning s) (speed s) (f (referenceSpeed s)) (time s) (distance s)
          (chartData s) (catchUpTime s) (targetTime s) (requiredSpeed s).
Definition setTime (f : number -> number) (s : State) : State :=
  mkState (isRunning s) (speed s) (referenceSpeed s) (f (time s)) (distance s)
          (chartData s) (catchUpTime s) (targetTime s) (requiredSpeed s).
Definition setDistance (f : number -> number) (s : State) : State :=
  mkState (isRunning s) (speed s) (referenceSpeed s) (time s) (f (distance s))
          (chartData s) (catchUpTime s) (targetTime s) (requiredSpeed s).
Definition setChartData (f : list ChartDataPoint.t -> list ChartDataPoint.t)
           (s : State) : State :=
  mkState (isRunning s) (speed s) (referenceSpeed s) (time s) (distance s)
          (f (chartData s)) (catchUpTime s) (targetTime s) (requiredSpeed s).
Definition setCatchUpTime (v : option number) (s : State) : State :=
  mkState (isRunning s) (speed s) (referenceSpeed s) (time s) (distance s)
          (chartData s) v (targetTime s) (requiredSpeed s).
Definition setTargetTime (f : number -> number) (s : State) : State :=
  mkState (isRunning s) (speed s) (referenceSpeed s) (time s) (distance s)
          (chartData s) (catchUpTime s) (f (targetTime s)) (requiredSpeed s).
Definition setRequiredSpeed (v : option number) (s : State) : State :=
  mkState (isRunning s) (speed s) (referenceSpeed s) (time s) (distance s)
          (chartData s) (catchUpTime s) (targetTime s) v.

Definition seed : ChartDataPoint.t :=
  ChartDataPoint.mk (lit 0) (lit 0) (lit 0).

Definition initialState : State :=
  {| isRunning := false;
     speed := ofDecimal 50 (-1);
     referenceSpeed := ofDecimal 60 (-1);
     time := lit 0;
     distance := lit 0;
     chartData := [seed];
     catchUpTime := None;
     targetTime := lit 3600;
     requiredSpeed := None |}.

(** The tick: lines 151-170. *)
Record Captured : Type := mkCaptured {
  cap_speed : number;
  cap_time : number;
  cap_distance : number;
  cap_referenceSpeed : number
}.

Definition capture (s : State) : Captured :=
  mkCaptured (speed s) (time s) (distance s) (referenceSpeed s).

Definition intervalCallback (c : Captured) (s : State) : State :=
  let s1 := setTime (fun prevTime => add prevTime (lit 1)) s in
  let s2 := setDistance
              (fun prevDistance => add prevDistance (div (cap_speed c) (lit 3600)))
              s1 in
  setChartData
    (fun prevData =>
       prevData ++
       [ChartDataPoint.mk
          (add (cap_time c) (lit 1))
          (add (cap_distance c) (div (cap_speed c) (lit 3600)))
          (div (mul (add (cap_time c) (lit 1)) (cap_referenceSpeed c))
               (lit 3600))])
    s2.

Definition interval (s : State) : option (State -> State) :=
  if isRunning s then Some (intervalCallback (capture s)) else None.

(** The estimators: lines 172-190. *)
Definition latest (data : list ChartDataPoint.t) : result ChartDataPoint.t :=
  match nth_error data (List.length data - 1) with
  | Some p => Ok p
  | None => TypeError
  end.

Definition catchUpEstimator (s : State) : result (option number) :=
  if gt (speed s) (referenceSpeed s) then
    p <- latest (chartData s) ;;
    let distanceDiff := sub (ChartDataPoint.reference p) (ChartDataPoint.distance p) in
    let speedDiff := sub (speed s) (referenceSpeed s) in
    let catchUpTimeSeconds :=
      Math_round (mul (div distanceDiff speedDiff) (lit 3600)) in
    Ok (Some (if gt catchUpTimeSeconds (lit 0) then catchUpTimeSeconds else lit 0))
  else Ok None.

Definition requiredSpeedEstimator (s : State) : option number :=
  let remainingTime := sub (targetTime s) (time s) in
  if gt remainingTime (lit 0) then
    let distanceToGo :=
      sub (div (mul (referenceSpeed s) (targetTime s)) (lit 3600)) (distance s) in
    let requiredSpeedValue := mul (div distanceToGo remainingTime) (lit 3600) in
    if gt requiredSpeedValue (lit 0) then Some requiredSpeedValue else None
  else None.

Definition estimatorEffect (s : State) : result State :=
  c <- catchUpEstimator s ;;
  Ok (setRequiredSpeed (requiredSpeedEstimator s) (setCatchUpTime c s)).

(** The handlers and the controls: lines 192-199, 221-247. *)
Definition handleStart : State -> State := setIsRunning true.
Definition handleStop : State -> State := setIsRunning false.
Definition handleSpeedChange (change : number) : State -> State :=
  setSpeed (fun prevSpeed => Math_max (lit 0) (add prevSpeed change)).
Definition handleReferenceSpeedChange (change : number) : State -> State :=
  setReferenceSpeed (fun prevSpeed => Math_max (lit 0) (add prevSpeed change)).

Definition targetMinus : State -> State :=
  setTargetTime (fun prev => Math_max (lit 60) (sub prev (lit 60))).
Definition targetPlus : State -> State :=
  setTargetTime (fun prev => add prev (lit 60)).
Definition targetChange (value : string) : State -> State :=
  setTargetTime (fun _ => mul (parseInt value) (lit 60)).
Definition referenceChange (value : string) : State -> State :=
  setReferenceSpeed (fun _ => parseFloat value).

Definition handler (e : event) (s : State) : State :=
  match e with
  | Tick => match interval s with Some callback => callback s | None => s end
  | ClickStartStop => if isRunning s then handleStop s else handleStart s
  | ClickSpeedMinus => handleSpeedChange (neg (ofDecimal 1 (-1))) s
  | ClickSpeedPlus => handleSpeedChange (ofDecimal 1 (-1)) s
  | ClickTargetMinus => targetMinus s
  | ChangeTarget value => targetChange value s
  | ClickTargetPlus => targetPlus s
  | ClickReferenceMinus => handleReferenceSpeedChange (neg (ofDecimal 1 (-1))) s
  | ChangeReference value => referenceChange value s
  | ClickReferencePlus => handleReferenceSpeedChange (ofDecimal 1 (-1)) s
  end.

Definition dispatch (e : event) (s : State) : result State :=
  estimatorEffect (handler e s).

Fixpoint run (es : list event) (s : State) : result State :=
  match es with
  | [] => Ok s
  | e :: es' => s' <- dispatch e s ;; run es' s'
  end.

Definition mount : result State := estimatorEffect initialState.

Inductive reachable : State -> Prop :=
| reachable_mount : forall s, mount = Ok s -> reachable s
| reachable_dispatch : forall e s s',
    reachable s -> dispatch e s = Ok s' -> reachable s'.

Definition mounted : State :=
  setRequiredSpeed (requiredSpeedEstimator initialState)
                   (setCatchUpTime None initialState).

Definition stateAfter (es : list event) : State :=
  match run es mounted with
  | Ok s => s
  | TypeError => mounted
  end.


(** Not [NaN] and not below zero. *)
Definition nonneg (a : number) : Prop := le (lit 0) a = true.

(** A zero or a finite double. *)
Definition isFinite (a : number) : bool :=
  match a with
  | S754_zero _ | S754_finite _ _ _ => true
  | _ => false
  end.

(** The same double, bit for bit. *)
Definition same (a b : number) : bool :=
  match a, b with
  | S754_zero s, S754_zero s' => Bool.eqb s s'
  | S754_infinity s, S754_infinity s' => Bool.eqb s s'
  | S754_nan, S754_nan => true
  | S754_finite s m e, S754_finite s' m' e' =>
      (Bool.eqb s s' && (m =? m')%positive && (e =? e')%Z)%bool
  | _, _ => false
  end.

(** The text of an integer as it is typed: decimal digits after an
    optional minus sign. *)
Definition decimalText (m : Z) : string :=
  NilZero.string_of_int (Z.to_int m).

(** The integers from [lo] on, [n] of them. *)
Definition integersFrom (lo : Z) (n : nat) : list Z :=
  List.map (fun i => (lo + Z.of_nat i)%Z) (seq 0 n).




(** Line 226: the value shown in the target-time field. *)
Definition targetMinutesShown (s : State) : number :=
  div (targetTime s) (lit 60).


End B64.

Declare Scope b64_scope.
Delimit Scope b64_scope with b64.
Infix "+" := B64.add : b64_scope.
Infix "-" := B64.sub : b64_scope.
Infix "*" := B64.mul : b64_scope.
Infix "/" := B64.div : b64_scope.
Infix ">?" := B64.gt (at level 70, no associativity) : b64_scope.
Infix "<=?" := B64.le (at level 70, no associativity) : b64_scope.
Infix "<?" := B64.lt (at level 70, no associativity) : b64_scope.

Ltac fields64 :=
  cbn [B64.handler];
  unfold B64.handleSpeedChange, B64.handleReferenceSpeedChange, B64.targetMinus,
    B64.targetPlus, B64.targetChange, B64.referenceChange, B64.handleStart,
    B64.handleStop, B64.intervalCallback, B64.capture, B64.setRequiredSpeed,
    B64.setCatchUpTime, B64.setTargetTime, B64.setSpeed, B64.setReferenceSpeed,
    B64.setIsRunning, B64.setTime, B64.setDistance, B64.setChartData;
  cbn [B64.isRunning B64.speed B64.referenceSpeed B64.time B64.distance
       B64.chartData B64.catchUpTime B64.targetTime B64.requiredSpeed
       B64.cap_speed B64.cap_time B64.cap_distance B64.cap_referenceSpeed].

(** ** Vocabulary of the statements *)

(** A real number that is not negative. *)
Definition nonneg (a : number) : Prop := exists v, a = Num v /\ (ofZ 0 <= v)%Qc.

(** The number of a tick count. *)
Definition litN (n : nat) : number := lit (Z.of_nat n).

(** How many of the ticks in a list of events find the interval installed,
    given whether the run is on at the start of the list. *)
Fixpoint ticksApplied (running : bool) (es : list event) : nat :=
  match es with
  | [] => 0
  | Tick :: es' => (if running then 1 else 0) + ticksApplied running es'
  | ClickStartStop :: es' => ticksApplied (negb running) es'
  | _ :: es' => ticksApplied running es'
  end.

(** The clock reads [n] and the history holds the times 0, 1, ..., n. *)
Definition clock (s : State) (n : nat) : Prop :=
  time s = litN n /\
  map ChartDataPoint.time (chartData s) = map litN (seq 0 (S n)).

(** The latest sample carries the scalars of the state. *)
Definition consistent (s : State) : Prop :=
  exists p, latest (chartData s) = Ok p /\
            ChartDataPoint.time p = time s /\
            ChartDataPoint.distance p = distance s.

(** Strictly increasing numbers. *)
Definition increasing (l : list number) : Prop :=
  StronglySorted (fun a b => (a <? b)%js = true) l.

(** Numbers that never go down. *)
Definition nondecreasing (l : list number) : Prop :=
  StronglySorted (fun a b => (a <=? b)%js = true) l.

(** The two estimator cells hold what the effect computes from the other
    cells. *)
Definition inSync (s : State) : Prop :=
  catchUpEstimator s = Ok (catchUpTime s) /\
  requiredSpeed s = requiredSpeedEstimator s.

(** * Facts about numbers *)

Section NumberFacts.

Local Open Scope Qc_scope.

Lemma number_eqb_eq (a b : number) : number_eqb a b = true -> a = b.
Proof.
  destruct a as [|x], b as [|y]; simpl; try discriminate; auto.
  intros H. f_equal. now apply Qc_eq_bool_correct.
Qed.

Lemma ofZ_plus (a b : Z) : ofZ a + ofZ b = ofZ (a + b).
Proof.
  apply Qc_is_canon. unfold ofZ, Qcplus, Q2Qc. cbn [this].
  rewrite !Qred_correct. rewrite inject_Z_plus. reflexivity.
Qed.

Lemma ofZ_lt (a b : Z) : (a < b)%Z <-> ofZ a < ofZ b.
Proof.
  unfold Qclt, ofZ, Q2Qc. cbn [this]. rewrite !Qred_correct.
  rewrite Zlt_Qlt. tauto.
Qed.

Lemma ofZ_le (a b : Z) : (a <= b)%Z <-> ofZ a <= ofZ b.
Proof.
  unfold Qcle, ofZ, Q2Qc. cbn [this]. rewrite !Qred_correct.
  rewrite Zle_Qle. tauto.
Qed.

Lemma gt_Num (x y : Qc) : (Num x >? Num y)%js = true <-> y < x.
Proof.
  simpl. rewrite (Qcgt_alt x y).
  destruct (x ?= y); split; congruence.
Qed.

Lemma gt_Num_false (x y : Qc) : (Num x >? Num y)%js = false <-> x <= y.
Proof.
  simpl. rewrite (Qcle_alt x y).
  destruct (x ?= y); split; congruence.
Qed.

Lemma le_Num (x y : Qc) : (Num x <=? Num y)%js = true <-> x <= y.
Proof.
  simpl. rewrite (Qcle_alt x y).
  destruct (x ?= y); split; congruence.
Qed.

(** A comparison that succeeds has two real operands. *)
Lemma gt_true_inv (a b : number) :
  (a >? b)%js = true -> exists x y, a = Num x /\ b = Num y /\ y < x.
Proof.
  destruct a as [|x], b as [|y]; try discriminate.
  intros H. exists x, y. repeat split. now apply gt_Num.
Qed.

Lemma gt_NaN_r (a : number) : (a >? NaN)%js = false.
Proof. now destruct a. Qed.

Lemma div_3600 (x : Qc) : (Num x / lit 3600)%js = Num (x / ofZ 3600).
Proof. reflexivity. Qed.

End NumberFacts.

(** Reduce the projections of a state built by setters, and nothing else. *)
Ltac fields :=
  cbn [handler];
  unfold handleSpeedChange, handleReferenceSpeedChange, targetMinus, targetPlus,
    targetChange, referenceChange, handleStart, handleStop, intervalCallback,
    capture, setRequiredSpeed, setCatchUpTime, setTargetTime, setSpeed,
    setReferenceSpeed, setIsRunning, setTime, setDistance, setChartData;
  cbn [handler isRunning speed referenceSpeed time distance chartData
       catchUpTime targetTime requiredSpeed
       cap_speed cap_time cap_distance cap_referenceSpeed].

(** * Facts about the effects *)

Section EffectFacts.

Lemma latest_snoc (l : list ChartDataPoint) (p : ChartDataPoint) :
  latest (l ++ [p]) = Ok p.
Proof.
  unfold latest. rewrite length_app. simpl.
  replace (List.length l + 1 - 1)%nat with (List.length l) by lia.
  rewrite nth_error_app2 by lia. now rewrite Nat.sub_diag.
Qed.

Lemma latest_nonempty (l : list ChartDataPoint) :
  l <> [] -> exists p, latest l = Ok p.
Proof.
  destruct l as [|a l'] using rev_ind; [congruence|].
  intros _. exists a. apply latest_snoc.
Qed.

Lemma catchUpEstimator_total (s : State) :
  chartData s <> [] -> exists c, catchUpEstimator s = Ok c.
Proof.
  intros H. unfold catchUpEstimator.
  destruct (speed s >? referenceSpeed s)%js; [|now eexists].
  destruct (latest_nonempty _ H) as [p ->]. simpl. now eexists.
Qed.

Lemma estimatorEffect_inv (s s' : State) :
  estimatorEffect s = Ok s' ->
  exists c, catchUpEstimator s = Ok c /\
            s' = setRequiredSpeed (requiredSpeedEstimator s) (setCatchUpTime c s).
Proof.
  unfold estimatorEffect. destruct (catchUpEstimator s) as [c|]; simpl.
  - intros [= <-]. now exists c.
  - discriminate.
Qed.

Lemma estimatorEffect_total (s : State) :
  chartData s <> [] ->
  exists c, catchUpEstimator s = Ok c /\
            estimatorEffect s =
            Ok (setRequiredSpeed (requiredSpeedEstimator s) (setCatchUpTime c s)).
Proof.
  intros H. destruct (catchUpEstimator_total s H) as [c Hc].
  exists c. split; [assumption|]. unfold estimatorEffect. now rewrite Hc.
Qed.

(** The history is touched by the tick alone, and only by appending. *)
Lemma handler_chartData (e : event) (s : State) :
  chartData (handler e s) = chartData s \/
  (e = Tick /\ isRunning s = true /\
   exists p, chartData (handler e s) = chartData s ++ [p]).
Proof.
  destruct e; simpl; try (now left).
  - unfold interval. destruct (isRunning s) eqn:R.
    + right. repeat split. eexists. reflexivity.
    + now left.
  - left. now destruct (isRunning s).
Qed.

Lemma handler_chartData_nonempty (e : event) (s : State) :
  chartData s <> [] -> chartData (handler e s) <> [].
Proof.
  intros H. destruct (handler_chartData e s) as [-> | (_ & _ & p & ->)]; auto.
  intros E. now apply app_eq_nil in E.
Qed.

Lemma dispatch_inv (e : event) (s s' : State) :
  dispatch e s = Ok s' ->
  exists c, catchUpEstimator (handler e s) = Ok c /\
            s' = setRequiredSpeed (requiredSpeedEstimator (handler e s))
                                  (setCatchUpTime c (handler e s)).
Proof. apply estimatorEffect_inv. Qed.

Lemma dispatch_total (e : event) (s : State) :
  chartData s <> [] ->
  exists s', dispatch e s = Ok s' /\ chartData s' = chartData (handler e s).
Proof.
  intros H. apply (handler_chartData_nonempty e) in H.
  destruct (estimatorEffect_total _ H) as (c & _ & E).
  eexists. split; [exact E|reflexivity].
Qed.

Lemma mount_mounted : mount = Ok mounted.
Proof. reflexivity. Qed.

(** No reachable state has an empty history, so the estimator effect never
    throws during a session. *)
Lemma reachable_chartData_nonempty (s : State) :
  reachable s -> chartData s <> [].
Proof.
  induction 1 as [s H | e s s' _ IH H].
  - rewrite mount_mounted in H. injection H as <-. discriminate.
  - apply dispatch_inv in H. destruct H as (c & _ & ->). simpl.
    now apply handler_chartData_nonempty.
Qed.

Lemma run_total (es : list event) (s : State) :
  chartData s <> [] -> exists s', run es s = Ok s'.
Proof.
  revert s. induction es as [|e es IH]; intros s H; simpl.
  - now exists s.
  - destruct (dispatch_total e s H) as (s1 & -> & E). simpl.
    apply IH. rewrite E. now apply handler_chartData_nonempty.
Qed.

Lemma run_reachable (es : list event) (s s' : State) :
  reachable s -> run es s = Ok s' -> reachable s'.
Proof.
  revert s. induction es as [|e es IH]; intros s R; simpl.
  - now intros [= <-].
  - destruct (dispatch e s) as [s1|] eqn:D; simpl; [|discriminate].
    apply IH. now apply reachable_dispatch with e s.
Qed.

Lemma reachable_mounted : reachable mounted.
Proof. apply reachable_mount, mount_mounted. Qed.

Lemma stateAfter_reachable (es : list event) : reachable (stateAfter es).
Proof.
  unfold stateAfter. destruct (run es mounted) as [s|] eqn:E.
  - apply run_reachable with es mounted; [apply reachable_mounted|exact E].
  - apply reachable_mounted.
Qed.

End EffectFacts.

(** * The control surface *)

Section ControlSurface.

Local Open Scope Qc_scope.

(** [Math.max] against a real floor, as a case split on the order. *)
Lemma Math_max_floor (f x : Qc) :
  Math_max (Num f) (Num x) = Num (if Qclt_le_dec f x then x else f).
Proof.
  unfold Math_max. destruct (Qclt_le_dec f x) as [L|L].
  - replace (Num f >? Num x)%js with false; [reflexivity|].
    symmetry. apply gt_Num_false. now apply Qclt_le_weak.
  - destruct (Num f >? Num x)%js eqn:E; [reflexivity|].
    apply gt_Num_false in E. f_equal. now apply Qcle_antisym.
Qed.



Lemma Math_max_0_nonneg (v d : Qc) :
  nonneg (Math_max (lit 0) (Num v + Num d)%js).
Proof.
  cbn [add lift2]. unfold lit. rewrite Math_max_floor.
  eexists. split; [reflexivity|].
  destruct (Qclt_le_dec (ofZ 0) (v + d)) as [L|L].
  - now apply Qclt_le_weak.
  - apply Qcle_refl.
Qed.

Lemma handler_speed_nonneg (e : event) (s : State) :
  nonneg (speed s) -> nonneg (speed (handler e s)).
Proof.
  intros N. destruct e; fields; try exact N.
  - unfold interval. destruct (isRunning s); fields; exact N.
  - destruct (isRunning s); fields; exact N.
  - destruct N as (v & -> & _). apply Math_max_0_nonneg.
  - destruct N as (v & -> & _). apply Math_max_0_nonneg.
Qed.

End ControlSurface.

(** * The ticker and the history *)

Section Ticker.

Local Open Scope Qc_scope.

Lemma litN_succ (n : nat) : (litN n + lit 1)%js = litN (S n).
Proof.
  unfold litN, lit. cbn [add lift2]. rewrite ofZ_plus.
  do 2 f_equal. lia.
Qed.

Lemma litN_lt (a b : nat) : (a < b)%nat -> (litN a <? litN b)%js = true.
Proof.
  intros H. unfold lt, litN, lit. apply gt_Num.
  apply (proj1 (ofZ_lt _ _)). lia.
Qed.

Lemma litN_seq_increasing (a k : nat) : increasing (map litN (seq a k)).
Proof.
  revert a. induction k as [|k IH]; intros a; simpl.
  - constructor.
  - constructor; [apply IH|].
    apply Forall_forall. intros x I. apply in_map_iff in I.
    destruct I as (b & <- & I). apply in_seq in I. apply litN_lt. lia.
Qed.

Lemma handler_Tick_running (s : State) :
  isRunning s = true -> handler Tick s = intervalCallback (capture s) s.
Proof. intros R. cbn [handler]. unfold interval. now rewrite R. Qed.

(** A tick of a running session never throws: the history it leaves is not
    empty. *)
Lemma dispatch_Tick_total (s : State) :
  isRunning s = true ->
  exists c, dispatch Tick s =
            Ok (setRequiredSpeed
                  (requiredSpeedEstimator (intervalCallback (capture s) s))
                  (setCatchUpTime c (intervalCallback (capture s) s))).
Proof.
  intros R. unfold dispatch. rewrite (handler_Tick_running s R).
  destruct (estimatorEffect_total (intervalCallback (capture s) s))
    as (c & _ & E).
  - fields. intros E. now apply app_eq_nil in E.
  - now exists c.
Qed.

(** Whether an event appends to the history in a given state. *)
Lemma handler_clock (e : event) (s : State) (n : nat) :
  clock s n ->
  clock (handler e s)
        (match e with Tick => if isRunning s then S n else n | _ => n end).
Proof.
  intros [T H]. destruct e; fields; try (split; assumption).
  - unfold interval. destruct (isRunning s) eqn:R; [|now split].
    unfold clock. fields. rewrite T, litN_succ.
    split; [reflexivity|].
    rewrite map_app, H. cbn [map ChartDataPoint.time].
    rewrite (seq_S (S n) 0), map_app. reflexivity.
  - destruct (isRunning s); fields; now split.
Qed.

Lemma handler_isRunning (e : event) (s : State) :
  isRunning (handler e s) =
  match e with ClickStartStop => negb (isRunning s) | _ => isRunning s end.
Proof.
  destruct e; fields; try reflexivity.
  - unfold interval. destruct (isRunning s) eqn:R; fields; now rewrite R.
  - destruct (isRunning s) eqn:R; reflexivity.
Qed.

Lemma run_clock (es : list event) (s0 s : State) (n0 : nat) :
  run es s0 = Ok s -> clock s0 n0 ->
  clock s (n0 + ticksApplied (isRunning s0) es).
Proof.
  revert s0 n0. induction es as [|e es IH]; intros s0 n0; simpl.
  - intros [= <-] C. now rewrite Nat.add_0_r.
  - destruct (dispatch e s0) as [s1|] eqn:D; simpl; [|discriminate].
    intros E C. apply dispatch_inv in D. destruct D as (c & _ & ->).
    apply (handler_clock e) in C.
    specialize (IH _ _ E C). revert IH. fields.
    rewrite handler_isRunning.
    destruct e; try (intros IH; exact IH).
    destruct (isRunning s0); cbn [Nat.add].
    + now rewrite <- plus_n_Sm.
    + trivial.
Qed.

Lemma ticksApplied_ticks (n : nat) : ticksApplied true (ticks n) = n.
Proof.
  unfold ticks. induction n as [|n IH]; simpl; [reflexivity|]. now rewrite IH.
Qed.

Lemma handler_time (e : event) (s : State) (n : nat) :
  time s = litN n ->
  time (handler e s) =
  litN (match e with Tick => if isRunning s then S n else n | _ => n end).
Proof.
  intros T. destruct e; fields; try exact T.
  - unfold interval. destruct (isRunning s); fields; [|exact T].
    now rewrite T, litN_succ.
  - destruct (isRunning s); fields; exact T.
Qed.

Lemma run_time (es : list event) (s0 s : State) (n0 : nat) :
  run es s0 = Ok s -> time s0 = litN n0 ->
  time s = litN (n0 + ticksApplied (isRunning s0) es).
Proof.
  revert s0 n0. induction es as [|e es IH]; intros s0 n0; simpl.
  - intros [= <-] T. now rewrite Nat.add_0_r.
  - destruct (dispatch e s0) as [s1|] eqn:D; simpl; [|discriminate].
    intros E T. apply dispatch_inv in D. destruct D as (c & _ & ->).
    apply (handler_time e) in T.
    specialize (IH _ _ E T). revert IH. fields.
    rewrite handler_isRunning.
    destruct e; try (intros IH; exact IH).
    destruct (isRunning s0); cbn [Nat.add].
    + now rewrite <- plus_n_Sm.
    + trivial.
Qed.

(** What one tick of a running session does to the scalars and to the
    history. *)
Lemma dispatch_Tick_running (s : State) :
  isRunning s = true ->
  exists s',
    dispatch Tick s = Ok s' /\
    isRunning s' = true /\
    speed s' = speed s /\
    referenceSpeed s' = referenceSpeed s /\
    time s' = (time s + lit 1)%js /\
    distance s' = (distance s + speed s / lit 3600)%js /\
    chartData s' =
    chartData s ++
    [ChartDataPoint.mk (time s + lit 1)%js
                       (distance s + speed s / lit 3600)%js
                       ((time s + lit 1) * referenceSpeed s / lit 3600)%js].
Proof.
  intros R. destruct (dispatch_Tick_total s R) as [c E].
  eexists. split; [exact E|]. fields. now repeat split.
Qed.

Lemma handler_consistent (e : event) (s : State) :
  consistent s -> consistent (handler e s).
Proof.
  intros C. destruct e; fields; try exact C.
  - unfold interval. destruct (isRunning s); [|exact C].
    unfold consistent. fields. eexists. split; [apply latest_snoc|].
    split; reflexivity.
  - destruct (isRunning s); exact C.
Qed.

Lemma reachable_consistent (s : State) : reachable s -> consistent s.
Proof.
  induction 1 as [s H | e s s' _ IH H].
  - rewrite mount_mounted in H. injection H as <-.
    exists seed. repeat split.
  - apply dispatch_inv in H. destruct H as (c & _ & ->).
    apply (handler_consistent e) in IH. exact IH.
Qed.

Lemma reachable_clock (s : State) : reachable s -> exists n, clock s n.
Proof.
  induction 1 as [s H | e s s' _ [n IH] H].
  - rewrite mount_mounted in H. injection H as <-.
    exists 0%nat. split; reflexivity.
  - apply dispatch_inv in H. destruct H as (c & _ & ->).
    apply (handler_clock e) in IH. eexists. exact IH.
Qed.

Lemma clock_increasing (s : State) (n : nat) :
  clock s n ->
  List.length (chartData s) = S n /\
  increasing (map ChartDataPoint.time (chartData s)).
Proof.
  intros [_ H]. split.
  - rewrite <- (length_map ChartDataPoint.time), H, length_map.
    apply length_seq.
  - rewrite H. apply litN_seq_increasing.
Qed.

Lemma run_prefix (es : list event) (s0 s : State) :
  run es s0 = Ok s -> exists l, chartData s = chartData s0 ++ l.
Proof.
  revert s0. induction es as [|e es IH]; intros s0; simpl.
  - intros [= <-]. exists []. now rewrite app_nil_r.
  - destruct (dispatch e s0) as [s1|] eqn:D; simpl; [|discriminate].
    intros E. destruct (IH _ E) as [l ->].
    apply dispatch_inv in D. destruct D as (c & _ & ->). fields.
    destruct (handler_chartData e s0) as [-> | (_ & _ & p & ->)].
    + now exists l.
    + exists (p :: l). now rewrite <- app_assoc.
Qed.

Lemma ticksApplied_ticks_app (n : nat) (r : bool) (es : list event) :
  ticksApplied r (ticks n ++ es) =
  ((if r then n else 0) + ticksApplied r es)%nat.
Proof.
  unfold ticks. induction n as [|n IH]; simpl.
  - now destruct r.
  - rewrite IH. destruct r; lia.
Qed.

(** C5: the history starts as the seed sample alone; an event leaves it
    unchanged unless it is a tick of a running session, which appends
    exactly one sample; after a start, [N1] ticks, a stop, a restart and
    [N2] more ticks it still begins with the seed, holds [1 + N1 + N2]
    samples, and its times increase strictly, as they do in every reachable
    state. *)
Theorem history_append_only (N1 N2 : nat) :
  chartData initialState = [seed] /\
  (forall e s s', dispatch e s = Ok s' ->
     chartData s' = chartData s \/
     (e = Tick /\ isRunning s = true /\
      exists p, chartData s' = chartData s ++ [p])) /\
  (forall s, isRunning s = true ->
     exists s' p, dispatch Tick s = Ok s' /\ chartData s' = chartData s ++ [p]) /\
  (forall s, reachable s ->
     increasing (map ChartDataPoint.time (chartData s))) /\
  exists s,
    run (ClickStartStop :: ticks N1 ++ [ClickStartStop; ClickStartStop] ++ ticks N2)
        mounted = Ok s /\
    nth_error (chartData s) 0 = Some seed /\
    List.length (chartData s) = (1 + N1 + N2)%nat /\
    map ChartDataPoint.time (chartData s) = map litN (seq 0 (1 + N1 + N2)) /\
    increasing (map ChartDataPoint.time (chartData s)).
Proof.
  split; [reflexivity|]. split; [|split; [|split]].
  - intros e s s' D. apply dispatch_inv in D. destruct D as (c & _ & ->).
    fields. apply handler_chartData.
  - intros s R. destruct (dispatch_Tick_running s R)
      as (s' & E & _ & _ & _ & _ & _ & H).
    exists s'. eexists. split; [exact E|exact H].
  - intros s R. destruct (reachable_clock s R) as [n C].
    now apply clock_increasing in C.
  - set (es := ClickStartStop :: ticks N1 ++
                 [ClickStartStop; ClickStartStop] ++ ticks N2).
    destruct (run_total es mounted) as [s E]; [discriminate|].
    exists s. split; [exact E|].
    destruct (run_prefix es mounted s E) as [l P].
    assert (C : clock s (0 + ticksApplied (isRunning mounted) es))
      by (apply (run_clock es mounted s 0 E); split; reflexivity).
    replace (0 + ticksApplied (isRunning mounted) es)%nat
      with (N1 + N2)%nat in C.
    + destruct (clock_increasing s (N1 + N2) C) as [L I].
      split; [now rewrite P|]. split; [exact L|]. split; [apply C|exact I].
    + unfold es. cbn [ticksApplied isRunning mounted setRequiredSpeed
                      setCatchUpTime initialState negb].
      rewrite ticksApplied_ticks_app.
      cbn [app ticksApplied negb]. now rewrite ticksApplied_ticks.
Qed.

(** Two ticks, a pause, three more ticks: six samples. *)
Lemma history_append_only_witness :
  exists s,
    run (ClickStartStop :: ticks 2 ++ [ClickStartStop; ClickStartStop] ++ ticks 3)
        mounted = Ok s /\
    List.length (chartData s) = 6%nat /\
    map ChartDataPoint.time (chartData s) =
    [litN 0; litN 1; litN 2; litN 3; litN 4; litN 5].
Proof.
  destruct (history_append_only 2 3) as (_ & _ & _ & _ & s & E & _ & L & M & _).
  exists s. split; [exact E|]. split; [exact L|exact M].
Defined.

(** C10: the sample a tick appends carries the updated elapsed time and
    the updated cumulative distance, and in every reachable state the
    latest sample agrees with the two scalars the estimators read. *)
Theorem latest_sample_consistent (s : State) :
  (isRunning s = true ->
   exists s' p, dispatch Tick s = Ok s' /\
                latest (chartData s') = Ok p /\
                ChartDataPoint.time p = time s' /\
                ChartDataPoint.distance p = distance s' /\
                time s' = (time s + lit 1)%js /\
                distance s' = (distance s + speed s / lit 3600)%js) /\
  (reachable s -> consistent s).
Proof.
  split.
  - intros R. destruct (dispatch_Tick_running s R)
      as (s' & E & _ & _ & _ & T & D & H).
    exists s'. eexists. split; [exact E|].
    split; [rewrite H; apply latest_snoc|].
    cbn [ChartDataPoint.time ChartDataPoint.distance]. now rewrite T, D.
  - apply reachable_consistent.
Qed.

Lemma latest_sample_consistent_witness :
  let s := stateAfter [ClickSpeedPlus; ClickStartStop; Tick; ClickSpeedMinus] in
  consistent s /\
  exists s' p, dispatch Tick s = Ok s' /\ latest (chartData s') = Ok p /\
               ChartDataPoint.time p = time s' /\
               ChartDataPoint.distance p = distance s'.
Proof.
  intros s. destruct (latest_sample_consistent s) as [A B].
  split.
  - apply B, stateAfter_reachable.
  - destruct (A eq_refl) as (s' & p & E & L & T & D & _).
    exists s', p. now repeat split.
Defined.

End Ticker.

(** * The estimators *)

Section Estimators.

Local Open Scope Qc_scope.

Lemma Qc_eq_bool_false (x y : Qc) : x <> y -> Qc_eq_bool x y = false.
Proof.
  intros NE. destruct (Qc_eq_bool x y) eqn:E; [|reflexivity].
  now apply Qc_eq_bool_correct in E.
Qed.

Lemma div_Num (x y : Qc) : y <> ofZ 0 -> (Num x / Num y)%js = Num (x / y).
Proof. intros NE. cbn [div]. now rewrite (Qc_eq_bool_false y (ofZ 0) NE). Qed.

Lemma Qcminus_pos (v w : Qc) : w < v -> ofZ 0 < v - w.
Proof. intros L. now apply Qclt_minus_iff in L. Qed.

Lemma Qcpos_nonzero (x : Qc) : ofZ 0 < x -> x <> ofZ 0.
Proof. intros L E. symmetry in E. revert E. now apply Qclt_not_eq. Qed.

(** The ternary [x > 0 ? x : 0] on an integer. *)
Lemma clamp_lit (z : Z) :
  (if (lit z >? lit 0)%js then lit z else lit 0) = lit (Z.max 0 z).
Proof.
  unfold lit. destruct (Num (ofZ z) >? Num (ofZ 0))%js eqn:E.
  - apply gt_Num in E. apply (proj2 (ofZ_lt _ _)) in E.
    now rewrite Z.max_r by lia.
  - apply gt_Num_false in E. apply (proj2 (ofZ_le _ _)) in E.
    now rewrite Z.max_l by lia.
Qed.

(** The value the catch-up branch stores, whatever the latest sample holds:
    a non-negative integer, 0 when the quotient is [NaN]. *)
Lemma catchUp_branch (p : ChartDataPoint) (v w : Qc) :
  w < v ->
  exists z, (0 <= z)%Z /\
    (let catchUpTimeSeconds :=
       Math_round (((ChartDataPoint.reference p - ChartDataPoint.distance p)
                    / (Num v - Num w)) * lit 3600)%js in
     if (catchUpTimeSeconds >? lit 0)%js then catchUpTimeSeconds else lit 0)
    = lit z /\
    (forall r d, ChartDataPoint.reference p = Num r ->
                 ChartDataPoint.distance p = Num d ->
                 z = Z.max 0 (Qfloor (this ((r - d) / (v - w) * ofZ 3600)
                                      + (1 # 2))%Q)) /\
    (ChartDataPoint.reference p = NaN \/ ChartDataPoint.distance p = NaN ->
     z = 0%Z).
Proof.
  intros L. pose proof (Qcpos_nonzero _ (Qcminus_pos v w L)) as NZ.
  destruct (ChartDataPoint.reference p) as [|r] eqn:Hr;
    [exists 0%Z; split; [lia|]; split; [reflexivity|]; split;
     [discriminate|reflexivity]|].
  destruct (ChartDataPoint.distance p) as [|d] eqn:Hd;
    [exists 0%Z; split; [lia|]; split; [reflexivity|]; split;
     [discriminate|reflexivity]|].
  cbn [sub lift2]. rewrite (div_Num _ _ NZ). cbn [mul lift2 lit Math_round].
  eexists. split; [|split; [apply clamp_lit|split]].
  - lia.
  - now intros r' d' [= <-] [= <-].
  - intros [H|H]; discriminate H.
Qed.

(** The two outcomes of the catch-up branch of the effect. *)
Lemma catchUpEstimator_shape (s : State) (p : ChartDataPoint) :
  latest (chartData s) = Ok p ->
  ((speed s >? referenceSpeed s)%js = false /\ catchUpEstimator s = Ok None) \/
  (exists v w z,
     speed s = Num v /\ referenceSpeed s = Num w /\ w < v /\
     (0 <= z)%Z /\ catchUpEstimator s = Ok (Some (lit z)) /\
     (forall r d, ChartDataPoint.reference p = Num r ->
                  ChartDataPoint.distance p = Num d ->
                  z = Z.max 0 (Qfloor (this ((r - d) / (v - w) * ofZ 3600)
                                       + (1 # 2))%Q)) /\
     (ChartDataPoint.reference p = NaN \/ ChartDataPoint.distance p = NaN ->
      z = 0%Z)).
Proof.
  intros L. unfold catchUpEstimator. rewrite L. cbn [bind].
  destruct (speed s >? referenceSpeed s)%js eqn:G; [right|now left].
  destruct (gt_true_inv _ _ G) as (v & w & Hv & Hw & Lt).
  rewrite Hv, Hw.
  destruct (catchUp_branch p v w Lt) as (z & Z0 & E & F & F0).
  exists v, w, z. cbv zeta in E. rewrite E.
  split; [reflexivity|]. split; [reflexivity|]. split; [exact Lt|].
  split; [exact Z0|]. split; [reflexivity|]. split; [exact F|exact F0].
Qed.

(** C6 as stated fails: with the target-time field cleared ([NaN]) and the
    runner faster than the reference, the catch-up estimator still reports
    a number of seconds. *)
Lemma catch_up_ignores_NaN_target :
  ~ (forall s : State,
       reachable s ->
       targetTime s = NaN \/ referenceSpeed s = NaN ->
       catchUpEstimator s = Ok None /\ requiredSpeedEstimator s = None).
Proof.
  intros H.
  destruct (H (stateAfter [ChangeReference "4"; ChangeTarget ""])
              (stateAfter_reachable _)) as [F _].
  - left. vm_compute. reflexivity.
  - vm_compute in F. discriminate F.
Qed.

(** C6, amended: the text inputs do store [NaN], and on a state whose
    history is not empty neither estimator ever outputs [NaN]; a [NaN]
    reference speed makes both report "not applicable"; a [NaN] target
    time makes the required-speed estimator report "not applicable" and
    leaves the catch-up estimator, which does not read the target, to its
    usual result. *)
Theorem estimators_on_NaN (s : State) (p : ChartDataPoint) :
  latest (chartData s) = Ok p ->
  exists c, catchUpEstimator s = Ok c /\
    c <> Some NaN /\ requiredSpeedEstimator s <> Some NaN /\
    (referenceSpeed s = NaN -> c = None /\ requiredSpeedEstimator s = None) /\
    (targetTime s = NaN ->
       requiredSpeedEstimator s = None /\
       (c = None <-> (speed s >? referenceSpeed s)%js = false)) /\
    targetTime (targetChange "" s) = NaN /\
    referenceSpeed (referenceChange "" s) = NaN.
Proof.
  intros L.
  assert (X : exists c, catchUpEstimator s = Ok c /\ c <> Some NaN /\
                        (c = None <-> (speed s >? referenceSpeed s)%js = false)).
  { destruct (catchUpEstimator_shape s p L)
      as [[G E] | (v & w & z & Hv & Hw & Lt & _ & E & _ & _)].
    - exists None. split; [exact E|]. split; [discriminate|]. now split.
    - exists (Some (lit z)). split; [exact E|]. split; [discriminate|].
      rewrite Hv, Hw. apply gt_Num in Lt. rewrite Lt. split; discriminate. }
  destruct X as (c & E & NN & N).
  exists c. split; [exact E|].
  assert (A : forall x, (if (x >? lit 0)%js then Some x else None) <> Some NaN).
  { intros [|x]; [discriminate|]. destruct (Num x >? lit 0)%js; discriminate. }
  split; [|split; [|split; [|split; [|split]]]].
  - exact NN.
  - unfold requiredSpeedEstimator.
    destruct (targetTime s - time s >? lit 0)%js; [apply A|discriminate].
  - intros R. split; [apply N; rewrite R; apply gt_NaN_r|].
    unfold requiredSpeedEstimator. rewrite R.
    destruct (targetTime s - time s >? lit 0)%js; [|reflexivity].
    destruct (targetTime s); reflexivity.
  - intros T. split; [|exact N].
    unfold requiredSpeedEstimator. now rewrite T.
  - reflexivity.
  - reflexivity.
Qed.

Lemma estimators_on_NaN_witness :
  (let s := stateAfter [ChangeReference ""] in
   catchUpEstimator s = Ok None /\ requiredSpeedEstimator s = None) /\
  (let s := stateAfter [ChangeReference "4"; ChangeTarget ""] in
   catchUpEstimator s = Ok (Some (lit 0)) /\ requiredSpeedEstimator s = None).
Proof.
  split; intros s.
  - destruct (estimators_on_NaN s seed) as (c & E & _ & _ & F & _);
      [vm_compute; reflexivity|].
    destruct F as [-> R]; [vm_compute; reflexivity|]. now split.
  - destruct (estimators_on_NaN s seed) as (c & E & _ & _ & _ & F & _);
      [vm_compute; reflexivity|].
    destruct F as [R _]; [vm_compute; reflexivity|].
    split; [vm_compute; reflexivity|exact R].
Defined.

End Estimators.

(** * The session as a whole *)

Section Session.

Local Open Scope Qc_scope.

(** The effect throws exactly on an empty history read by the catch-up
    branch, that is when the runner is faster than the reference. *)
Theorem estimatorEffect_throws_iff (s : State) :
  estimatorEffect s = TypeError <->
  chartData s = [] /\ (speed s >? referenceSpeed s)%js = true.
Proof.
  unfold estimatorEffect, catchUpEstimator.
  destruct (speed s >? referenceSpeed s)%js eqn:G; cbn [bind].
  - destruct (chartData s) as [|a l] eqn:D.
    + cbn. now split.
    + destruct (latest_nonempty (a :: l)) as [p ->]; [discriminate|].
      cbn [bind]. split; [discriminate|]. intros [E _]. discriminate E.
  - split; [discriminate|]. intros [_ E]. discriminate E.
Qed.

(** Whatever the user does, the session goes on: every list of events runs
    to a state from the mounted component. *)
Theorem session_never_throws (es : list event) :
  exists s, run es mounted = Ok s /\ reachable s /\ chartData s <> [].
Proof.
  destruct (run_total es mounted) as [s E]; [discriminate|].
  exists s. split; [exact E|].
  assert (R : reachable s)
    by (apply run_reachable with es mounted; [apply reachable_mounted|exact E]).
  split; [exact R|]. now apply reachable_chartData_nonempty.
Qed.

Lemma estimators_ignore_cells (h : State) (c r : option number) :
  catchUpEstimator (setRequiredSpeed r (setCatchUpTime c h)) = catchUpEstimator h /\
  requiredSpeedEstimator (setRequiredSpeed r (setCatchUpTime c h)) =
  requiredSpeedEstimator h.
Proof. split; reflexivity. Qed.

Lemma estimatorEffect_inSync (h s : State) :
  estimatorEffect h = Ok s -> inSync s.
Proof.
  intros E. apply estimatorEffect_inv in E. destruct E as (c & E & ->).
  destruct (estimators_ignore_cells h c (requiredSpeedEstimator h)) as [A B].
  split; [rewrite A; exact E|rewrite B; reflexivity].
Qed.

Lemma reachable_inSync (s : State) : reachable s -> inSync s.
Proof.
  intros R. destruct R as [s H | e s s' _ H].
  - now apply estimatorEffect_inSync with initialState.
  - now apply estimatorEffect_inSync with (handler e s).
Qed.

Lemma handler_stopped (e : event) (s : State) :
  isRunning s = false -> e <> ClickStartStop ->
  isRunning (handler e s) = false /\
  time (handler e s) = time s /\
  distance (handler e s) = distance s /\
  chartData (handler e s) = chartData s.
Proof.
  intros R NE. destruct e; fields; try (now repeat split).
  unfold interval. rewrite R. now repeat split.
Qed.

(** A stopped session does not advance: as long as the start button is not
    pressed, no event (a late tick included) moves the clock, the distance
    or the history. *)
Theorem stopped_session_is_frozen (es : list event) (s : State) :
  isRunning s = false -> chartData s <> [] -> ~ In ClickStartStop es ->
  exists s', run es s = Ok s' /\
             isRunning s' = false /\ time s' = time s /\
             distance s' = distance s /\ chartData s' = chartData s.
Proof.
  revert s. induction es as [|e es IH]; intros s R NE NI.
  - exists s. now repeat split.
  - assert (Ne : e <> ClickStartStop) by (intros ->; apply NI; now left).
    destruct (handler_stopped e s R Ne) as (R1 & T1 & D1 & C1).
    destruct (dispatch_total e s NE) as (s1 & E1 & H1).
    pose proof E1 as E1'. apply dispatch_inv in E1'.
    destruct E1' as (c & _ & ->).
    destruct (IH (setRequiredSpeed (requiredSpeedEstimator (handler e s))
                                   (setCatchUpTime c (handler e s))))
      as (s' & E & R' & T' & D' & C').
    + exact R1.
    + fields. rewrite C1. exact NE.
    + intros I. apply NI. now right.
    + exists s'. cbn [run]. rewrite E1. cbn [bind].
      split; [exact E|]. split; [exact R'|].
      split; [rewrite T'; exact T1|].
      split; [rewrite D'; exact D1|rewrite C'; exact C1].
Qed.

Lemma stopped_session_is_frozen_witness :
  let s := stateAfter [ClickStartStop; Tick; Tick; ClickStartStop] in
  exists s', run [Tick; ClickSpeedPlus; Tick; ChangeTarget "30"; Tick] s = Ok s' /\
             time s' = time s /\ chartData s' = chartData s.
Proof.
  intros s.
  destruct (stopped_session_is_frozen
              [Tick; ClickSpeedPlus; Tick; ChangeTarget "30"; Tick] s)
    as (s' & E & _ & T & _ & C).
  - vm_compute. reflexivity.
  - apply reachable_chartData_nonempty, stateAfter_reachable.
  - cbn [In]. intros H. repeat destruct H as [H|H]; try discriminate H; exact H.
  - exists s'. now repeat split.
Defined.

Lemma dispatch_toggle (s : State) :
  inSync s ->
  dispatch ClickStartStop s = Ok (setIsRunning (negb (isRunning s)) s).
Proof.
  intros [Sc Sr]. unfold dispatch. cbn [handler].
  assert (H : (if isRunning s then handleStop s else handleStart s)
              = setIsRunning (negb (isRunning s)) s)
    by (destruct (isRunning s); reflexivity).
  rewrite H. unfold estimatorEffect.
  change (catchUpEstimator (setIsRunning (negb (isRunning s)) s))
    with (catchUpEstimator s).
  rewrite Sc. cbn [bind].
  change (requiredSpeedEstimator (setIsRunning (negb (isRunning s)) s))
    with (requiredSpeedEstimator s).
  rewrite <- Sr. reflexivity.
Qed.

(** Stop then start (or start then stop) changes nothing: the session
    resumes from the very state it was in. *)
Theorem double_toggle_is_identity (s : State) :
  reachable s -> run [ClickStartStop; ClickStartStop] s = Ok s.
Proof.
  intros R. pose proof (reachable_inSync s R) as S.
  cbn [run]. rewrite (dispatch_toggle s S). cbn [bind].
  rewrite dispatch_toggle by exact S. cbn [bind]. f_equal.
  destruct s as [r v w t d h c T q]. now destruct r.
Qed.

Lemma double_toggle_is_identity_witness :
  let s := stateAfter [ClickStartStop; Tick; ClickSpeedPlus] in
  run [ClickStartStop; ClickStartStop] s = Ok s.
Proof. intros s. apply double_toggle_is_identity, stateAfter_reachable. Defined.

End Session.

(** * Progress of the run *)

Section Progress.

Local Open Scope Qc_scope.

Lemma le_refl_Num (x : Qc) : (Num x <=? Num x)%js = true.
Proof. apply le_Num, Qcle_refl. Qed.

Lemma Qc_share_nonneg (v : Qc) : ofZ 0 <= v -> ofZ 0 <= v / ofZ 3600.
Proof.
  intros H. unfold Qcdiv.
  replace (ofZ 0) with (ofZ 0 * / ofZ 3600) by (change (ofZ 0) with 0; ring).
  apply Qcmult_le_compat_r; [exact H|]. now vm_compute.
Qed.

Lemma Qc_le_add_nonneg (d x : Qc) : ofZ 0 <= x -> d <= d + x.
Proof.
  intros H. replace d with (d + ofZ 0) at 1 by (change (ofZ 0) with 0; ring).
  apply Qcplus_le_compat; [apply Qcle_refl|exact H].
Qed.

(** One event never lowers the distance of a runner whose speed is not
    negative. *)
Lemma handler_distance_mono (e : event) (s : State) (d : Qc) :
  nonneg (speed s) -> distance s = Num d ->
  exists d', distance (handler e s) = Num d' /\ d <= d'.
Proof.
  intros (v & V & V0) D.
  assert (K : exists d', distance s = Num d' /\ d <= d')
    by (exists d; split; [exact D|apply Qcle_refl]).
  destruct e; fields; try exact K.
  - unfold interval. destruct (isRunning s); [|exact K]. fields.
    rewrite V, D, div_3600. cbn [add lift2]. eexists. split; [reflexivity|].
    now apply Qc_le_add_nonneg, Qc_share_nonneg.
  - destruct (isRunning s); exact K.
Qed.

Lemma run_distance_mono (es : list event) (s0 s : State) (d0 : Qc) :
  run es s0 = Ok s -> nonneg (speed s0) -> distance s0 = Num d0 ->
  exists d, distance s = Num d /\ d0 <= d.
Proof.
  revert s0 d0. induction es as [|e es IH]; intros s0 d0; simpl.
  - intros [= <-] _ D. exists d0. split; [exact D|apply Qcle_refl].
  - destruct (dispatch e s0) as [s1|] eqn:E1; simpl; [|discriminate].
    intros E V D. apply dispatch_inv in E1. destruct E1 as (c & _ & ->).
    destruct (handler_distance_mono e s0 d0 V D) as (d1 & D1 & L1).
    destruct (IH _ d1 E) as (d & Dd & L).
    + fields. now apply handler_speed_nonneg.
    + exact D1.
    + exists d. split; [exact Dd|]. now apply Qcle_trans with d1.
Qed.

Lemma reachable_speed_distance_nonneg (s : State) :
  reachable s -> nonneg (speed s) /\ nonneg (distance s).
Proof.
  induction 1 as [s H | e s s' _ [IHv IHd] H].
  - rewrite mount_mounted in H. injection H as <-.
    split; eexists; (split; [reflexivity|]); now apply (proj1 (ofZ_le _ _)).
  - apply dispatch_inv in H. destruct H as (c & _ & ->). fields.
    split; [now apply handler_speed_nonneg|].
    destruct IHd as (d & D & D0).
    destruct (handler_distance_mono e s d IHv D) as (d' & D' & L).
    exists d'. split; [exact D'|]. now apply Qcle_trans with d.
Qed.

(** The cumulative distance and the clock never go back: between a
    reachable state and any state reached from it, neither decreases, and
    the distance is never negative. *)
Theorem distance_and_clock_never_decrease (es : list event) (s s' : State) :
  reachable s -> run es s = Ok s' ->
  (exists d d', distance s = Num d /\ distance s' = Num d' /\
                ofZ 0 <= d /\ d <= d') /\
  (exists n n', time s = litN n /\ time s' = litN n' /\ (n <= n')%nat).
Proof.
  intros R E. split.
  - destruct (reachable_speed_distance_nonneg s R) as (V & d & D & D0).
    destruct (run_distance_mono es s s' d E V D) as (d' & D' & L).
    exists d, d'. now repeat split.
  - destruct (reachable_clock s R) as (n & T & _).
    exists n. eexists. split; [exact T|].
    split; [exact (run_time es s s' n E T)|]. lia.
Qed.

Lemma distance_and_clock_never_decrease_witness :
  let s := stateAfter [ClickStartStop; Tick] in
  let s' := stateAfter [ClickStartStop; Tick; ClickSpeedMinus; Tick; Tick] in
  exists d d', distance s = Num d /\ distance s' = Num d' /\ d <= d'.
Proof.
  intros s s'.
  destruct (distance_and_clock_never_decrease
              [ClickSpeedMinus; Tick; Tick] s s' (stateAfter_reachable _))
    as [(d & d' & D & D' & _ & L) _].
  - vm_compute. reflexivity.
  - exists d, d'. now repeat split.
Defined.

Lemma StronglySorted_snoc {A : Type} (R : A -> A -> Prop) (l : list A) (x : A) :
  StronglySorted R l -> Forall (fun a => R a x) l ->
  StronglySorted R (l ++ [x]).
Proof.
  induction 1 as [|a l S IH F]; intros H; simpl.
  - repeat constructor.
  - inversion H as [|? ? Ra Hl]; subst. constructor; [now apply IH|].
    apply Forall_app. split; [exact F|]. now constructor.
Qed.

(** What the history of a reachable state looks like below the current
    distance. *)
Lemma reachable_history_below (s : State) :
  reachable s ->
  nondecreasing (map ChartDataPoint.distance (chartData s)) /\
  Forall (fun p => nonneg (ChartDataPoint.distance p) /\
                   (ChartDataPoint.distance p <=? distance s)%js = true)
         (chartData s).
Proof.
  induction 1 as [s H | e s s' R [IHs IHf] H].
  - rewrite mount_mounted in H. injection H as <-. split.
    + repeat constructor.
    + repeat constructor. exists (ofZ 0). split; [reflexivity|apply Qcle_refl].
  - apply dispatch_inv in H. destruct H as (c & _ & ->). fields.
    destruct (reachable_speed_distance_nonneg s R) as (V & d & D & D0).
    destruct (handler_distance_mono e s d V D) as (d' & D' & L).
    assert (F' : Forall (fun p => nonneg (ChartDataPoint.distance p) /\
                   (ChartDataPoint.distance p <=? distance (handler e s))%js = true)
                        (chartData s)).
    { eapply Forall_impl; [|exact IHf]. intros p [(x & X & X0) Lp].
      split; [now exists x|]. rewrite X, D in Lp. rewrite X, D'.
      apply le_Num. apply le_Num in Lp. now apply Qcle_trans with d. }
    destruct (handler_chartData e s) as [-> | (-> & Run & p & Hp)].
    + now split.
    + rewrite Hp. revert Hp. rewrite (handler_Tick_running s Run) in *.
      fields. intros Hp. apply app_inv_head in Hp. injection Hp as <-.
      revert D' F'. fields. intros D' F'.
      split.
      * rewrite map_app. apply StronglySorted_snoc; [exact IHs|].
        apply Forall_map. eapply Forall_impl; [|exact F'].
        now intros p [_ Lp].
      * apply Forall_app. split; [exact F'|]. constructor; [|constructor].
        cbn [ChartDataPoint.distance]. rewrite D'.
        split; [|apply le_refl_Num].
        exists d'. split; [reflexivity|]. now apply Qcle_trans with d.
Qed.

(** The curve drawn for the runner never dips: along the history of any
    reachable state the distances never decrease, every one of them is a
    real number that is not negative and at most the current distance. *)
Theorem history_distances_never_decrease (s : State) :
  reachable s ->
  nondecreasing (map ChartDataPoint.distance (chartData s)) /\
  Forall (fun p => nonneg (ChartDataPoint.distance p) /\
                   (ChartDataPoint.distance p <=? distance s)%js = true)
         (chartData s).
Proof. apply reachable_history_below. Qed.

Lemma history_distances_never_decrease_witness :
  nondecreasing
    (map ChartDataPoint.distance
         (chartData (stateAfter [ClickStartStop; Tick; ClickSpeedMinus; Tick]))).
Proof.
  apply (history_distances_never_decrease _ (stateAfter_reachable _)).
Defined.

(** The integer [Math.round] picks lies within half a unit of its
    argument. *)
Lemma Qc_round_bounds (q : Qc) :
  let z := Qfloor (this q + (1 # 2))%Q in
  ofZ z <= q + Q2Qc (1 # 2) /\ q + Q2Qc (1 # 2) < ofZ z + 1.
Proof.
  intros z. unfold Qcle, Qclt, Qcplus, ofZ, Q2Qc. cbn [this].
  rewrite !Qred_correct. split.
  - apply Qfloor_le.
  - pose proof (Qlt_floor (this q + (1 # 2))%Q) as H. fold z in H.
    now rewrite inject_Z_plus in H.
Qed.

Lemma Qc_quotient_nonneg (a c : Qc) :
  ofZ 0 <= a -> ofZ 0 < c -> ofZ 0 <= a / c * ofZ 3600.
Proof.
  intros A C. assert (I : ofZ 0 <= / c).
  { apply Qclt_le_weak. unfold Qclt, Qcinv, Q2Qc in *. cbn [this ofZ Q2Qc] in *.
    rewrite !Qred_correct in *. now apply Qinv_lt_0_compat. }
  unfold Qcdiv.
  replace (ofZ 0) with (ofZ 0 * / c * ofZ 3600) by (change (ofZ 0) with 0; ring).
  apply Qcmult_le_compat_r; [|now vm_compute].
  apply Qcmult_le_compat_r; assumption.
Qed.

Lemma Qc_round_nonpos (q : Qc) :
  q <= ofZ 0 -> (Qfloor (this q + (1 # 2))%Q <= 0)%Z.
Proof.
  intros H. apply Z.lt_succ_r. apply (proj2 (ofZ_lt _ _)).
  destruct (Qc_round_bounds q) as [B _]. cbv zeta in B.
  apply Qcle_lt_trans with (q + Q2Qc (1 # 2)); [exact B|].
  apply Qcle_lt_trans with (ofZ 0 + Q2Qc (1 # 2)).
  - apply Qcplus_le_compat; [exact H|apply Qcle_refl].
  - now vm_compute.
Qed.

(** A runner who is faster than the reference and level with it or ahead
    in the latest sample is told 0 seconds, never a negative time. *)
Theorem catch_up_is_zero_when_ahead
        (s : State) (p : ChartDataPoint) (v w r d : Qc) :
  latest (chartData s) = Ok p ->
  speed s = Num v -> referenceSpeed s = Num w -> w < v ->
  ChartDataPoint.reference p = Num r -> ChartDataPoint.distance p = Num d ->
  r <= d ->
  catchUpEstimator s = Ok (Some (lit 0)).
Proof.
  intros L V W Lt Rp Dp Ahead.
  destruct (catchUpEstimator_shape s p L)
    as [[G _] | (v0 & w0 & z & Hv & Hw & _ & _ & E & F & _)].
  - rewrite V, W in G. apply gt_Num_false in G. now apply Qcle_not_lt in G.
  - rewrite V in Hv. rewrite W in Hw. injection Hv as <-. injection Hw as <-.
    rewrite E, (F r d Rp Dp). do 3 f_equal. apply Z.max_l.
    apply Qc_round_nonpos.
    pose proof (Qc_quotient_nonneg (d - r) (v - w)) as Q.
    apply (proj1 (Qcle_minus_iff _ _)) in Ahead.
    specialize (Q Ahead (Qcminus_pos v w Lt)).
    apply (proj2 (Qcle_minus_iff _ _)).
    replace (ofZ 0 + - ((r - d) / (v - w) * ofZ 3600))
      with ((d - r) / (v - w) * ofZ 3600); [exact Q|].
    change (ofZ 0) with 0. field. now apply Qcpos_nonzero, Qcminus_pos.
Qed.

(** At the start both stand at 0: with the reference clicked down to 4.9
    mi/h the runner at 5 mi/h has nothing to catch up. *)
Lemma catch_up_is_zero_when_ahead_witness :
  catchUpEstimator (stateAfter (repeat ClickReferenceMinus 11)) = Ok (Some (lit 0)).
Proof.
  set (s := stateAfter _).
  apply (catch_up_is_zero_when_ahead s seed (ofZ 5) (Q2Qc (49 # 10))
           (ofZ 0) (ofZ 0)).
  - vm_compute. reflexivity.
  - apply number_eqb_eq. vm_compute. reflexivity.
  - apply number_eqb_eq. vm_compute. reflexivity.
  - vm_compute. reflexivity.
  - reflexivity.
  - reflexivity.
  - apply Qcle_refl.
Defined.

End Progress.

(** * What is shown *)

Section Rendering.

Local Open Scope Qc_scope.

Lemma Math_max_NaN_r (a : number) : Math_max a NaN = NaN.
Proof. now destruct a. Qed.

Lemma spread_NaN (xs : list number) :
  In NaN xs -> Math_max_spread xs = Max NaN.
Proof.
  induction xs as [|x xs IH]; intros I; [contradiction|].
  cbn [Math_max_spread]. destruct I as [-> | I].
  - now destruct (Math_max_spread xs).
  - rewrite (IH I). now rewrite Math_max_NaN_r.
Qed.

(** One tick with the reference-speed field cleared and the distance axis
    is lost for the rest of the session: the sample it appends has a [NaN]
    reference, the history is never pruned, and [maxDistance] is [NaN] in
    every later state. *)
Theorem NaN_tick_breaks_distance_axis (es : list event) (s : State) :
  isRunning s = true -> referenceSpeed s = NaN ->
  exists s', run (Tick :: es) s = Ok s' /\
             maxDistance (chartData s') = Max NaN.
Proof.
  intros R N.
  destruct (dispatch_Tick_running s R) as (s1 & E1 & _ & _ & _ & _ & _ & H1).
  destruct (run_total es s1) as [s' E'].
  { rewrite H1. intros E. now apply app_eq_nil in E. }
  exists s'. cbn [run]. rewrite E1. cbn [bind]. split; [exact E'|].
  destruct (run_prefix es s1 s' E') as [l ->]. rewrite H1, N.
  unfold maxDistance. apply spread_NaN. rewrite !map_app. cbn [map].
  apply in_or_app. left. apply in_or_app. right. left.
  cbn [ChartDataPoint.distance ChartDataPoint.reference].
  replace ((time s + lit 1) * NaN / lit 3600)%js with NaN
    by (now destruct (time s + lit 1)%js).
  apply Math_max_NaN_r.
Qed.

Lemma NaN_tick_breaks_distance_axis_witness :
  exists s',
    run [Tick; ChangeReference "6"; Tick; Tick]
        (stateAfter [ClickStartStop; ChangeReference ""]) = Ok s' /\
    maxDistance (chartData s') = Max NaN.
Proof.
  apply NaN_tick_breaks_distance_axis; vm_compute; reflexivity.
Defined.

End Rendering.

(** * The component over binary64 *)

Section Binary64Effects.

Lemma b64_latest_snoc (l : list B64.ChartDataPoint.t) (p : B64.ChartDataPoint.t) :
  B64.latest (l ++ [p]) = Ok p.
Proof.
  unfold B64.latest. rewrite length_app. simpl.
  replace (List.length l + 1 - 1)%nat with (List.length l) by lia.
  rewrite nth_error_app2 by lia. now rewrite Nat.sub_diag.
Qed.

Lemma b64_latest_nonempty (l : list B64.ChartDataPoint.t) :
  l <> [] -> exists p, B64.latest l = Ok p.
Proof.
  destruct l as [|a l'] using rev_ind; [congruence|].
  intros _. exists a. apply b64_latest_snoc.
Qed.

Lemma b64_estimatorEffect_inv (s s' : B64.State) :
  B64.estimatorEffect s = Ok s' ->
  exists c, B64.catchUpEstimator s = Ok c /\
            s' = B64.setRequiredSpeed (B64.requiredSpeedEstimator s)
                                      (B64.setCatchUpTime c s).
Proof.
  unfold B64.estimatorEffect.
  destruct (B64.catchUpEstimator s) as [c|]; simpl.
  - intros [= <-]. now exists c.
  - discriminate.
Qed.

Lemma b64_estimatorEffect_total (s : B64.State) :
  B64.chartData s <> [] ->
  exists c, B64.catchUpEstimator s = Ok c /\
            B64.estimatorEffect s =
            Ok (B64.setRequiredSpeed (B64.requiredSpeedEstimator s)
                                     (B64.setCatchUpTime c s)).
Proof.
  intros H.
  assert (X : exists c, B64.catchUpEstimator s = Ok c).
  { unfold B64.catchUpEstimator.
    destruct (B64.gt (B64.speed s) (B64.referenceSpeed s)); [|now eexists].
    destruct (b64_latest_nonempty _ H) as [p ->]. simpl. now eexists. }
  destruct X as [c Hc]. exists c. split; [exact Hc|].
  unfold B64.estimatorEffect. now rewrite Hc.
Qed.

Lemma b64_handler_chartData (e : event) (s : B64.State) :
  B64.chartData (B64.handler e s) = B64.chartData s \/
  (e = Tick /\ B64.isRunning s = true /\
   exists p, B64.chartData (B64.handler e s) = B64.chartData s ++ [p]).
Proof.
  destruct e; simpl; try (now left).
  - unfold B64.interval. destruct (B64.isRunning s) eqn:R.
    + right. repeat split. eexists. reflexivity.
    + now left.
  - left. now destruct (B64.isRunning s).
Qed.

Lemma b64_handler_chartData_nonempty (e : event) (s : B64.State) :
  B64.chartData s <> [] -> B64.chartData (B64.handler e s) <> [].
Proof.
  intros H.
  destruct (b64_handler_chartData e s) as [-> | (_ & _ & p & ->)]; auto.
  intros E. now apply app_eq_nil in E.
Qed.

Lemma b64_dispatch_inv (e : event) (s s' : B64.State) :
  B64.dispatch e s = Ok s' ->
  exists c, B64.catchUpEstimator (B64.handler e s) = Ok c /\
            s' = B64.setRequiredSpeed
                   (B64.requiredSpeedEstimator (B64.handler e s))
                   (B64.setCatchUpTime c (B64.handler e s)).
Proof. apply b64_estimatorEffect_inv. Qed.

Lemma b64_dispatch_total (e : event) (s : B64.State) :
  B64.chartData s <> [] ->
  exists c, B64.dispatch e s =
            Ok (B64.setRequiredSpeed
                  (B64.requiredSpeedEstimator (B64.handler e s))
                  (B64.setCatchUpTime c (B64.handler e s))).
Proof.
  intros H. apply (b64_handler_chartData_nonempty e) in H.
  destruct (b64_estimatorEffect_total _ H) as (c & _ & E). now exists c.
Qed.

Lemma b64_mount_mounted : B64.mount = Ok B64.mounted.
Proof. vm_compute. reflexivity. Qed.

Lemma b64_reachable_chartData_nonempty (s : B64.State) :
  B64.reachable s -> B64.chartData s <> [].
Proof.
  induction 1 as [s H | e s s' _ IH H].
  - rewrite b64_mount_mounted in H. injection H as <-. discriminate.
  - apply b64_dispatch_inv in H. destruct H as (c & _ & ->). simpl.
    now apply b64_handler_chartData_nonempty.
Qed.

Lemma b64_run_reachable (es : list event) (s s' : B64.State) :
  B64.reachable s -> B64.run es s = Ok s' -> B64.reachable s'.
Proof.
  revert s. induction es as [|e es IH]; intros s R; simpl.
  - now intros [= <-].
  - destruct (B64.dispatch e s) as [s1|] eqn:D; simpl; [|discriminate].
    apply IH. now apply B64.reachable_dispatch with e s.
Qed.

Lemma b64_reachable_mounted : B64.reachable B64.mounted.
Proof. apply B64.reachable_mount, b64_mount_mounted. Qed.

Lemma b64_stateAfter_reachable (es : list event) :
  B64.reachable (B64.stateAfter es).
Proof.
  unfold B64.stateAfter. destruct (B64.run es B64.mounted) as [s|] eqn:E.
  - apply b64_run_reachable with es B64.mounted;
      [apply b64_reachable_mounted|exact E].
  - apply b64_reachable_mounted.
Qed.

Lemma b64_reachable_dispatch_total (e : event) (s : B64.State) :
  B64.reachable s ->
  exists c, B64.dispatch e s =
            Ok (B64.setRequiredSpeed
                  (B64.requiredSpeedEstimator (B64.handler e s))
                  (B64.setCatchUpTime c (B64.handler e s))).
Proof.
  intros R. apply b64_dispatch_total.
  now apply b64_reachable_chartData_nonempty.
Qed.

(** What one tick of a running session does. *)
Lemma b64_dispatch_Tick_running (s : B64.State) :
  B64.isRunning s = true ->
  exists s',
    B64.dispatch Tick s = Ok s' /\
    B64.isRunning s' = true /\
    B64.speed s' = B64.speed s /\
    B64.referenceSpeed s' = B64.referenceSpeed s /\
    B64.targetTime s' = B64.targetTime s /\
    B64.time s' = (B64.time s + B64.lit 1)%b64 /\
    B64.distance s' = (B64.distance s + B64.speed s / B64.lit 3600)%b64 /\
    B64.chartData s' =
    B64.chartData s ++
    [B64.ChartDataPoint.mk
       (B64.time s + B64.lit 1)%b64
       (B64.distance s + B64.speed s / B64.lit 3600)%b64
       ((B64.time s + B64.lit 1) * B64.referenceSpeed s / B64.lit 3600)%b64].
Proof.
  intros R.
  assert (H : B64.handler Tick s = B64.intervalCallback (B64.capture s) s)
    by (cbn [B64.handler]; unfold B64.interval; now rewrite R).
  destruct (b64_estimatorEffect_total (B64.intervalCallback (B64.capture s) s))
    as (c & _ & E).
  - fields64. intros E. now apply app_eq_nil in E.
  - eexists. unfold B64.dispatch. rewrite H. split; [exact E|].
    fields64. now repeat split.
Qed.

End Binary64Effects.

(** * Facts about binary64 numbers *)

Section Binary64Numbers.

Lemma b64_compare_antisym (a b : B64.number) (c : comparison) :
  SFcompare a b = Some c -> SFcompare b a = Some (CompOpp c).
Proof.
  destruct a as [sa|sa| |sa ma ea], b as [sb|sb| |sb mb eb];
    cbn [SFcompare]; try discriminate; intros [= <-];
    try (destruct sa; reflexivity); try (destruct sb; reflexivity);
    try (destruct sa, sb; reflexivity).
  destruct sa, sb; try reflexivity; f_equal;
    rewrite (Z.compare_antisym ea eb); destruct (ea ?= eb)%Z; cbn [CompOpp];
      try reflexivity;
      change (Pos.compare_cont Eq mb ma) with (Pos.compare mb ma);
      change (Pos.compare_cont Eq ma mb) with (Pos.compare ma mb);
      rewrite (Pos.compare_antisym ma mb); destruct (ma ?= mb)%positive;
        reflexivity.
Qed.

Lemma b64_compare_refl (a : B64.number) :
  B64.isNaN a = false -> SFcompare a a = Some Eq.
Proof.
  destruct a as [s|s| |s m e]; cbn; try discriminate; intros _;
    try (destruct s; reflexivity).
  change (Pos.compare_cont Eq m m) with (Pos.compare m m).
  rewrite Z.compare_refl, Pos.compare_refl. now destruct s.
Qed.

Lemma b64_compare_None (a b : B64.number) :
  SFcompare a b = None <-> B64.isNaN a = true \/ B64.isNaN b = true.
Proof.
  destruct a as [sa|sa| |sa ma ea], b as [sb|sb| |sb mb eb]; cbn;
    split; try discriminate; try tauto;
    try (intros [H|H]; discriminate H).
Qed.


(** On two numbers [<=] is the negation of [>]; with a [NaN] operand both
    are false. *)
Lemma b64_le_negb_gt (a b : B64.number) :
  B64.isNaN a = false -> B64.isNaN b = false ->
  B64.le a b = negb (B64.gt a b).
Proof.
  intros Na Nb. unfold B64.le, B64.gt, SFleb, SFltb.
  destruct (SFcompare a b) as [c|] eqn:E.
  - rewrite (b64_compare_antisym a b c E). now destruct c.
  - apply b64_compare_None in E. destruct E; congruence.
Qed.

Lemma b64_le_true_notNaN (a b : B64.number) :
  B64.le a b = true -> B64.isNaN a = false /\ B64.isNaN b = false.
Proof.
  unfold B64.le, SFleb. destruct (SFcompare a b) as [c|] eqn:E; [|discriminate].
  intros _. destruct a, b; try discriminate E; now split.
Qed.


(** Rounding never invents a [NaN]. *)
Lemma shr_1_nonneg (mrs : shr_record) :
  (0 <= shr_m mrs)%Z -> (0 <= shr_m (shr_1 mrs))%Z.
Proof.
  destruct mrs as [m r s]. cbn [shr_m]. intros H.
  destruct m as [|[p|p|]|p]; cbn; lia.
Qed.

Lemma iter_shr_1_nonneg (n : positive) (mrs : shr_record) :
  (0 <= shr_m mrs)%Z -> (0 <= shr_m (iter_pos shr_1 n mrs))%Z.
Proof.
  revert mrs. induction n as [n IH|n IH|]; intros mrs H; cbn [iter_pos].
  - apply IH, IH, shr_1_nonneg, H.
  - apply IH, IH, H.
  - apply shr_1_nonneg, H.
Qed.

Lemma shr_fexp_nonneg (m e : Z) (l : location) :
  (0 <= m)%Z -> (0 <= shr_m (fst (shr_fexp B64.prec B64.emax m e l)))%Z.
Proof.
  intros H. unfold shr_fexp, shr.
  assert (R : (0 <= shr_m (shr_record_of_loc m l))%Z)
    by (destruct l as [|[]]; exact H).
  destruct (fexp B64.prec B64.emax (Zdigits2 m + e) - e)%Z; cbn [fst];
    try exact R.
  now apply iter_shr_1_nonneg.
Qed.

Lemma round_nearest_even_nonneg (m : Z) (l : location) :
  (0 <= m)%Z -> (0 <= round_nearest_even m l)%Z.
Proof.
  intros H. destruct l as [|[]]; cbn; try lia.
  destruct (Z.even m); lia.
Qed.

Lemma binary_round_aux_notNaN (sx : bool) (mx ex : Z) (lx : location) :
  (0 <= mx)%Z ->
  B64.isNaN (binary_round_aux B64.prec B64.emax sx mx ex lx) = false.
Proof.
  intros H. unfold binary_round_aux.
  pose proof (shr_fexp_nonneg mx ex lx H) as H1.
  destruct (shr_fexp B64.prec B64.emax mx ex lx) as [mrs' e']. cbn [fst] in H1.
  pose proof (shr_fexp_nonneg
                (round_nearest_even (shr_m mrs') (loc_of_shr_record mrs'))
                e' loc_Exact (round_nearest_even_nonneg _ _ H1)) as H2.
  destruct (shr_fexp B64.prec B64.emax
              (round_nearest_even (shr_m mrs') (loc_of_shr_record mrs'))
              e' loc_Exact) as [mrs'' e'']. cbn [fst] in H2.
  destruct (shr_m mrs'') as [|m|m]; [reflexivity| |lia].
  now destruct (e'' <=? B64.emax - B64.prec)%Z.
Qed.

Lemma binary_normalize_notNaN (m e : Z) (szero : bool) :
  B64.isNaN (binary_normalize B64.prec B64.emax m e szero) = false.
Proof.
  destruct m as [|p|p]; cbn [binary_normalize]; [reflexivity| |];
    unfold binary_round;
    destruct (shl_align p e _) as [mz ez];
    now apply binary_round_aux_notNaN.
Qed.

(** Adding or subtracting a finite number never turns a number into
    [NaN]. *)
Lemma b64_add_finite_notNaN (a : B64.number) (s : bool) (m : positive) (e : Z) :
  B64.isNaN a = false -> B64.isNaN (B64.add a (S754_finite s m e)) = false.
Proof.
  destruct a as [sa|sa| |sa ma ea]; cbn; try discriminate; intros _;
    try reflexivity.
  apply binary_normalize_notNaN.
Qed.

Lemma b64_sub_finite_notNaN (a : B64.number) (s : bool) (m : positive) (e : Z) :
  B64.isNaN a = false -> B64.isNaN (B64.sub a (S754_finite s m e)) = false.
Proof.
  destruct a as [sa|sa| |sa ma ea]; cbn; try discriminate; intros _;
    try reflexivity.
  apply binary_normalize_notNaN.
Qed.

Lemma b64_Math_max_ge_l (a b : B64.number) :
  B64.isNaN a = false -> B64.isNaN b = false ->
  B64.le a (B64.Math_max a b) = true.
Proof.
  intros Na Nb. unfold B64.Math_max, B64.le, SFleb.
  destruct (SFcompare a b) as [c|] eqn:E.
  - destruct c.
    + destruct a as [[|]| | |]; try (now rewrite b64_compare_refl);
        now rewrite E.
    + now rewrite E.
    + now rewrite b64_compare_refl.
  - apply b64_compare_None in E. destruct E; congruence.
Qed.






Lemma b64_same_eq (a b : B64.number) : B64.same a b = true -> a = b.
Proof.
  destruct a as [s|s| |s m e], b as [s'|s'| |s' m' e']; cbn; try discriminate;
    try reflexivity.
  - intros H. apply eqb_prop in H. now subst.
  - intros H. apply eqb_prop in H. now subst.
  - intros H. apply andb_true_iff in H. destruct H as [H He].
    apply andb_true_iff in H. destruct H as [Hs Hm].
    apply eqb_prop in Hs. apply Pos.eqb_eq in Hm. apply Z.eqb_eq in He.
    now subst.
Qed.

Lemma b64_add_notNaN (a b : B64.number) :
  B64.isNaN a = false -> B64.isFinite b = true ->
  B64.isNaN (B64.add a b) = false.
Proof.
  intros Na Fb. destruct b as [s|s| |s m e]; try discriminate Fb.
  - destruct a as [sa|sa| |sa ma ea]; try discriminate Na; try reflexivity.
    now destruct sa, s.
  - now apply b64_add_finite_notNaN.
Qed.

Lemma b64_sub_notNaN (a b : B64.number) :
  B64.isNaN a = false -> B64.isFinite b = true ->
  B64.isNaN (B64.sub a b) = false.
Proof.
  intros Na Fb. destruct b as [s|s| |s m e]; try discriminate Fb.
  - destruct a as [sa|sa| |sa ma ea]; try discriminate Na; try reflexivity.
    now destruct sa, s.
  - now apply b64_sub_finite_notNaN.
Qed.


End Binary64Numbers.

(** * The estimators over binary64 *)

Section Binary64Estimators.




(** C2 as stated fails: with the target-time field cleared the estimator
    reports "not applicable" although neither the remaining time nor the
    computed value is [<= 0], both being [NaN]. *)
Lemma required_speed_null_without_le_binary64 :
  ~ (forall s : B64.State,
       B64.reachable s ->
       let remainingTime := (B64.targetTime s - B64.time s)%b64 in
       let value :=
         ((B64.referenceSpeed s * B64.targetTime s / B64.lit 3600
           - B64.distance s) / remainingTime * B64.lit 3600)%b64 in
       (B64.requiredSpeedEstimator s = None <->
        (remainingTime <=? B64.lit 0)%b64 = true \/
        (value <=? B64.lit 0)%b64 = true)).
Proof.
  intros H.
  destruct (H (B64.stateAfter [ChangeTarget ""]) (b64_stateAfter_reachable _))
    as [F _].
  assert (E : B64.requiredSpeedEstimator (B64.stateAfter [ChangeTarget ""]) = None)
    by (vm_compute; reflexivity).
  apply F in E. vm_compute in E. destruct E as [E|E]; discriminate E.
Qed.

(** C2, amended: the required-speed estimator reports "not applicable"
    exactly when [targetTime - time > 0] is false or the computed value
    [(referenceSpeed * targetTime / 3600 - distance) / (targetTime - time)
    * 3600] is not [> 0], that is when one of the two is [<= 0] or [NaN],
    and exactly that value otherwise; with a target of 3600, a reference
    of 6.0, 1800 seconds elapsed and 2.0 miles run the result is 8.0. *)
Theorem required_speed_estimate_binary64 (s : B64.State) :
  let remainingTime := (B64.targetTime s - B64.time s)%b64 in
  let value :=
    ((B64.referenceSpeed s * B64.targetTime s / B64.lit 3600 - B64.distance s)
     / remainingTime * B64.lit 3600)%b64 in
  (B64.requiredSpeedEstimator s = None <->
   (remainingTime >? B64.lit 0)%b64 = false \/ (value >? B64.lit 0)%b64 = false) /\
  ((remainingTime >? B64.lit 0)%b64 = true -> (value >? B64.lit 0)%b64 = true ->
   B64.requiredSpeedEstimator s = Some value) /\
  (B64.isNaN remainingTime = false -> B64.isNaN value = false ->
   (B64.requiredSpeedEstimator s = None <->
    (remainingTime <=? B64.lit 0)%b64 = true \/
    (value <=? B64.lit 0)%b64 = true)) /\
  (B64.targetTime s = B64.lit 3600 -> B64.referenceSpeed s = B64.lit 6 ->
   B64.time s = B64.lit 1800 -> B64.distance s = B64.lit 2 ->
   B64.requiredSpeedEstimator s = Some (B64.lit 8)).
Proof.
  intros remainingTime value.
  assert (A : B64.requiredSpeedEstimator s =
              if (remainingTime >? B64.lit 0)%b64
              then if (value >? B64.lit 0)%b64 then Some value else None
              else None) by reflexivity.
  assert (I : (B64.requiredSpeedEstimator s = None <->
               (remainingTime >? B64.lit 0)%b64 = false \/
               (value >? B64.lit 0)%b64 = false)).
  { rewrite A. destruct (remainingTime >? B64.lit 0)%b64;
      [destruct (value >? B64.lit 0)%b64|]; split; intros; auto;
      try discriminate; destruct H; discriminate. }
  split; [exact I|]. split; [|split].
  - intros G1 G2. now rewrite A, G1, G2.
  - intros N1 N2. rewrite I.
    rewrite (b64_le_negb_gt remainingTime (B64.lit 0) N1 eq_refl).
    rewrite (b64_le_negb_gt value (B64.lit 0) N2 eq_refl).
    destruct (remainingTime >? B64.lit 0)%b64, (value >? B64.lit 0)%b64;
      cbn [negb]; intuition congruence.
  - intros HT Hw Ht Hd. rewrite A. subst remainingTime value.
    rewrite HT, Hw, Ht, Hd. vm_compute. reflexivity.
Qed.

(** The state of the scenario: half an hour in, 2.0 miles run. *)
Lemma required_speed_estimate_binary64_witness :
  B64.requiredSpeedEstimator
    (B64.mkState true (B64.lit 4) (B64.lit 6) (B64.lit 1800) (B64.lit 2)
                 [B64.seed] None (B64.lit 3600) None)
  = Some (B64.lit 8).
Proof.
  set (s := B64.mkState _ _ _ _ _ _ _ _ _).
  destruct (required_speed_estimate_binary64 s) as (_ & _ & _ & F).
  apply F; reflexivity.
Defined.

End Binary64Estimators.

(** * The ticker over binary64 *)

Section Binary64Session.









(** The distance remembers past speeds: the same clock reading and the
    same current speed, different distances. *)
Lemma distance_path_dependent_binary64 :
  B64.same (B64.time (B64.stateAfter [ClickStartStop; Tick]))
           (B64.time (B64.stateAfter [ClickSpeedPlus; ClickStartStop; Tick;
                                      ClickSpeedMinus])) = true /\
  B64.same (B64.speed (B64.stateAfter [ClickStartStop; Tick]))
           (B64.speed (B64.stateAfter [ClickSpeedPlus; ClickStartStop; Tick;
                                       ClickSpeedMinus])) = true /\
  B64.same (B64.distance (B64.stateAfter [ClickStartStop; Tick]))
           (B64.distance (B64.stateAfter [ClickSpeedPlus; ClickStartStop; Tick;
                                          ClickSpeedMinus])) = false.
Proof. vm_compute. repeat split. Qed.

(** C4: the sample a tick appends has the reference value [(time + 1) *
    referenceSpeed / 3600], computed from the clock and the reference speed
    of the state the tick finds, which the tick leaves at [time + 1] and
    unchanged; so two sessions that tick from the same clock reading with
    the same reference speed append the same reference value, whatever
    happened before. *)
Theorem reference_path_independent_binary64 (s1 s2 : B64.State) :
  B64.isRunning s1 = true -> B64.isRunning s2 = true ->
  B64.time s1 = B64.time s2 -> B64.referenceSpeed s1 = B64.referenceSpeed s2 ->
  exists s1' s2' p1 p2,
    B64.dispatch Tick s1 = Ok s1' /\ B64.dispatch Tick s2 = Ok s2' /\
    B64.chartData s1' = B64.chartData s1 ++ [p1] /\
    B64.chartData s2' = B64.chartData s2 ++ [p2] /\
    B64.latest (B64.chartData s1') = Ok p1 /\
    B64.latest (B64.chartData s2') = Ok p2 /\
    B64.time s1' = (B64.time s1 + B64.lit 1)%b64 /\
    B64.time s2' = (B64.time s2 + B64.lit 1)%b64 /\
    B64.referenceSpeed s1' = B64.referenceSpeed s1 /\
    B64.referenceSpeed s2' = B64.referenceSpeed s2 /\
    B64.ChartDataPoint.time p1 = B64.time s1' /\
    B64.ChartDataPoint.time p2 = B64.time s2' /\
    B64.ChartDataPoint.reference p1 =
      ((B64.time s1 + B64.lit 1) * B64.referenceSpeed s1 / B64.lit 3600)%b64 /\
    B64.ChartDataPoint.reference p1 =
      (B64.time s1' * B64.referenceSpeed s1' / B64.lit 3600)%b64 /\
    B64.ChartDataPoint.reference p2 = B64.ChartDataPoint.reference p1.
Proof.
  intros R1 R2 T F.
  destruct (b64_dispatch_Tick_running s1 R1)
    as (s1' & E1 & _ & _ & F1 & _ & T1 & _ & H1).
  destruct (b64_dispatch_Tick_running s2 R2)
    as (s2' & E2 & _ & _ & F2 & _ & T2 & _ & H2).
  exists s1', s2'. do 2 eexists.
  split; [exact E1|]. split; [exact E2|].
  split; [exact H1|]. split; [exact H2|].
  split; [rewrite H1; apply b64_latest_snoc|].
  split; [rewrite H2; apply b64_latest_snoc|].
  cbn [B64.ChartDataPoint.time B64.ChartDataPoint.reference].
  rewrite T1, T2, F1, F2, T, F. now repeat split.
Qed.

(** Two sessions at the same clock reading and reference speed, one of
    which ran its first second against a reference of 9 mi/h: both third
    samples carry the reference value 2 * 6 / 3600. *)
Lemma reference_path_independent_binary64_witness :
  exists s1' s2' p1 p2,
    B64.dispatch Tick (B64.stateAfter [ClickStartStop; Tick]) = Ok s1' /\
    B64.dispatch Tick (B64.stateAfter [ChangeReference "9"; ClickStartStop; Tick;
                                       ChangeReference "6"]) = Ok s2' /\
    B64.chartData s1' =
      B64.chartData (B64.stateAfter [ClickStartStop; Tick]) ++ [p1] /\
    B64.chartData s2' =
      B64.chartData (B64.stateAfter [ChangeReference "9"; ClickStartStop; Tick;
                                     ChangeReference "6"]) ++ [p2] /\
    B64.ChartDataPoint.reference p1 = (B64.lit 2 * B64.lit 6 / B64.lit 3600)%b64 /\
    B64.ChartDataPoint.reference p2 = (B64.lit 2 * B64.lit 6 / B64.lit 3600)%b64.
Proof.
  destruct (reference_path_independent_binary64
              (B64.stateAfter [ClickStartStop; Tick])
              (B64.stateAfter [ChangeReference "9"; ClickStartStop; Tick;
                               ChangeReference "6"]))
    as (s1' & s2' & p1 & p2 & E1 & E2 & H1 & H2 & _ & _ & _ & _ & _ & _
        & _ & _ & F1 & _ & F2); try (vm_compute; reflexivity).
  exists s1', s2', p1, p2. rewrite F2, F1.
  repeat split; try assumption; vm_compute; reflexivity.
Defined.

End Binary64Session.

(** * The control surface over binary64 *)

Section Binary64Controls.

Lemma b64_integersFrom_In (lo : Z) (n : nat) (m : Z) :
  (lo <= m < lo + Z.of_nat n)%Z -> In m (B64.integersFrom lo n).
Proof.
  intros H. unfold B64.integersFrom. apply in_map_iff.
  exists (Z.to_nat (m - lo)). split; [lia|]. apply in_seq. lia.
Qed.

(** Whole minutes up to 1000 either side of zero, typed in decimal, are
    stored as that many times 60 seconds. *)
Lemma b64_minutes_entry_exact :
  forallb (fun m => B64.same (B64.parseInt (B64.decimalText m) * B64.lit 60)%b64
                             (B64.lit (m * 60)))
          (B64.integersFrom (-1000) (Z.to_nat 2001)) = true.
Proof. vm_compute. reflexivity. Qed.

(** C7 as stated fails twice: after the direct entry of -10 minutes a +60
    edit leaves the target at -540 seconds, below the floor of 60; and the
    direct entry of the integer 9007199254740993 does not store that many
    minutes times 60, not even rounded to the nearest double. *)
Lemma target_plus_not_floored_binary64 :
  ~ (forall s s' : B64.State,
       B64.reachable s -> B64.dispatch ClickTargetPlus s = Ok s' ->
       (B64.lit 60 <=? B64.targetTime s')%b64 = true) /\
  ~ (forall (m : Z) (s s' : B64.State),
       B64.reachable s ->
       B64.dispatch (ChangeTarget (B64.decimalText m)) s = Ok s' ->
       B64.targetTime s' = B64.ofZ (m * 60)).
Proof.
  split; intros H.
  - specialize (H (B64.stateAfter [ChangeTarget "-10"])
                  (B64.stateAfter [ChangeTarget "-10"; ClickTargetPlus])
                  (b64_stateAfter_reachable _)).
    assert (E : B64.dispatch ClickTargetPlus (B64.stateAfter [ChangeTarget "-10"]) =
                Ok (B64.stateAfter [ChangeTarget "-10"; ClickTargetPlus]))
      by (vm_compute; reflexivity).
    specialize (H E). vm_compute in H. discriminate H.
  - specialize (H 9007199254740993%Z B64.mounted
                  (B64.stateAfter [ChangeTarget "9007199254740993"])
                  b64_reachable_mounted).
    assert (E : B64.dispatch (ChangeTarget (B64.decimalText 9007199254740993))
                             B64.mounted =
                Ok (B64.stateAfter [ChangeTarget "9007199254740993"]))
      by (vm_compute; reflexivity).
    specialize (H E). vm_compute in H. discriminate H.
Qed.

(** C7, amended: the -60 edit stores [Math.max(60, prior - 60)], which is
    at least 60 for every prior value that is a number and [NaN] for a
    [NaN] prior; the +60 edit stores [prior + 60] with no floor; direct
    entry stores the binary64 product [parseInt(text) * 60] with no floor,
    which is [m * 60] seconds for a whole number [m] of minutes typed in
    decimal as long as [m] is at most 1000 in magnitude. *)
Theorem target_time_edits_binary64 (s : B64.State) :
  B64.reachable s ->
  (exists s', B64.dispatch ClickTargetMinus s = Ok s' /\
     B64.targetTime s' =
     B64.Math_max (B64.lit 60) (B64.targetTime s - B64.lit 60)%b64 /\
     (B64.isNaN (B64.targetTime s) = false ->
      (B64.lit 60 <=? B64.targetTime s')%b64 = true) /\
     (B64.isNaN (B64.targetTime s) = true -> B64.targetTime s' = B64.NaN)) /\
  (exists s', B64.dispatch ClickTargetPlus s = Ok s' /\
     B64.targetTime s' = (B64.targetTime s + B64.lit 60)%b64) /\
  (forall text, exists s', B64.dispatch (ChangeTarget text) s = Ok s' /\
     B64.targetTime s' = (B64.parseInt text * B64.lit 60)%b64) /\
  (forall m, (-1000 <= m <= 1000)%Z ->
     exists s', B64.dispatch (ChangeTarget (B64.decimalText m)) s = Ok s' /\
                B64.targetTime s' = B64.lit (m * 60)).
Proof.
  intros R. split; [|split; [|split]].
  - destruct (b64_reachable_dispatch_total ClickTargetMinus s R) as [c E].
    eexists. split; [exact E|]. fields64. split; [reflexivity|]. split.
    + intros N. apply b64_Math_max_ge_l; [reflexivity|].
      now apply b64_sub_notNaN.
    + intros N. destruct (B64.targetTime s); try discriminate N. reflexivity.
  - destruct (b64_reachable_dispatch_total ClickTargetPlus s R) as [c E].
    eexists. split; [exact E|]. reflexivity.
  - intros text.
    destruct (b64_reachable_dispatch_total (ChangeTarget text) s R) as [c E].
    eexists. split; [exact E|]. reflexivity.
  - intros m M.
    destruct (b64_reachable_dispatch_total (ChangeTarget (B64.decimalText m)) s R)
      as [c E].
    eexists. split; [exact E|]. fields64. apply b64_same_eq.
    pose proof b64_minutes_entry_exact as C.
    rewrite forallb_forall in C. apply (C m).
    apply b64_integersFrom_In. lia.
Qed.

Lemma target_time_edits_binary64_witness :
  (exists s', B64.dispatch ClickTargetMinus (B64.stateAfter [ChangeTarget "-10"]) = Ok s' /\
              B64.targetTime s' = B64.lit 60) /\
  (exists s', B64.dispatch ClickTargetPlus (B64.stateAfter [ChangeTarget "-10"]) = Ok s' /\
              B64.targetTime s' = B64.lit (-540)) /\
  (exists s', B64.dispatch (ChangeTarget "45") (B64.stateAfter [ChangeTarget "-10"]) = Ok s' /\
              B64.targetTime s' = B64.lit 2700) /\
  (exists s', B64.dispatch (ChangeTarget "9007199254740993")
                           (B64.stateAfter [ChangeTarget "-10"]) = Ok s' /\
              B64.targetTime s' = B64.lit 540431955284459520).
Proof.
  destruct (target_time_edits_binary64 (B64.stateAfter [ChangeTarget "-10"])
              (b64_stateAfter_reachable _))
    as ((s1 & E1 & T1 & _) & (s2 & E2 & T2) & F & G).
  split; [|split; [|split]].
  - exists s1. split; [exact E1|]. rewrite T1. vm_compute. reflexivity.
  - exists s2. split; [exact E2|]. rewrite T2. vm_compute. reflexivity.
  - destruct (G 45%Z) as (s3 & E3 & T3); [lia|].
    exists s3. split; [exact E3|exact T3].
  - destruct (F "9007199254740993"%string) as (s4 & E4 & T4).
    exists s4. split; [exact E4|]. rewrite T4. vm_compute. reflexivity.
Defined.

Lemma b64_Math_max_0_nonneg (v d : B64.number) :
  B64.nonneg v -> B64.isFinite d = true ->
  B64.nonneg (B64.Math_max (B64.lit 0) (v + d)%b64).
Proof.
  intros N F. apply b64_le_true_notNaN in N. destruct N as [_ N].
  apply b64_Math_max_ge_l; [reflexivity|]. now apply b64_add_notNaN.
Qed.

Lemma b64_handler_speed_nonneg (e : event) (s : B64.State) :
  B64.nonneg (B64.speed s) -> B64.nonneg (B64.speed (B64.handler e s)).
Proof.
  intros N. destruct e; fields64; try exact N.
  - unfold B64.interval. destruct (B64.isRunning s); fields64; exact N.
  - destruct (B64.isRunning s); fields64; exact N.
  - now apply b64_Math_max_0_nonneg.
  - now apply b64_Math_max_0_nonneg.
Qed.

Lemma b64_handler_referenceSpeed_nonneg (e : event) (s : B64.State) :
  (forall value, e <> ChangeReference value) ->
  B64.nonneg (B64.referenceSpeed s) ->
  B64.nonneg (B64.referenceSpeed (B64.handler e s)).
Proof.
  intros NE N. destruct e; fields64; try exact N.
  - unfold B64.interval. destruct (B64.isRunning s); fields64; exact N.
  - destruct (B64.isRunning s); fields64; exact N.
  - now apply b64_Math_max_0_nonneg.
  - now elim (NE value).
  - now apply b64_Math_max_0_nonneg.
Qed.

Lemma b64_run_speeds_nonneg (es : list event) (s0 s : B64.State) :
  B64.run es s0 = Ok s ->
  (B64.nonneg (B64.speed s0) -> B64.nonneg (B64.speed s)) /\
  ((forall value, ~ In (ChangeReference value) es) ->
   B64.nonneg (B64.referenceSpeed s0) -> B64.nonneg (B64.referenceSpeed s)).
Proof.
  revert s0. induction es as [|e es IH]; intros s0; simpl.
  - intros [= <-]. auto.
  - destruct (B64.dispatch e s0) as [s1|] eqn:D; simpl; [|discriminate].
    intros E. destruct (IH s1 E) as [IHs IHr].
    apply b64_dispatch_inv in D. destruct D as (c & _ & ->).
    split.
    + intros N. apply IHs. fields64. now apply b64_handler_speed_nonneg.
    + intros NI N. apply IHr.
      * intros value I. apply (NI value). now right.
      * fields64. apply b64_handler_referenceSpeed_nonneg; [|exact N].
        intros value ->. apply (NI value). now left.
Qed.

(** C9 as stated fails: typing -1 into the reference-speed field stores
    -1, and sixty-one clicks on the reference minus button store 0;
    neither is a positive real. *)
Lemma reference_entry_not_positive_binary64 :
  ~ (forall s : B64.State,
       B64.reachable s ->
       (B64.lit 0 <? B64.speed s)%b64 = true /\
       (B64.lit 0 <? B64.referenceSpeed s)%b64 = true) /\
  B64.referenceSpeed (B64.stateAfter [ChangeReference "-1"]) = B64.lit (-1) /\
  B64.referenceSpeed (B64.stateAfter (repeat ClickReferenceMinus 61)) = B64.lit 0.
Proof.
  split; [|split; vm_compute; reflexivity].
  intros H.
  destruct (H (B64.stateAfter [ChangeReference "-1"]) (b64_stateAfter_reachable _))
    as [_ F].
  vm_compute in F. discriminate F.
Qed.

(** C9, amended: after any sequence of events the current speed is a
    number (not [NaN]) that is not below zero, zero included, and so is
    the reference speed as long as the sequence holds no direct entry of
    the reference speed; a direct entry stores the double that
    [parseFloat] returns, whatever it is. *)
Theorem speeds_never_negative_binary64 (es : list event) (s : B64.State) :
  B64.run es B64.mounted = Ok s ->
  B64.nonneg (B64.speed s) /\
  ((forall value, ~ In (ChangeReference value) es) ->
   B64.nonneg (B64.referenceSpeed s)) /\
  (forall value, exists s',
      B64.dispatch (ChangeReference value) s = Ok s' /\
      B64.referenceSpeed s' = B64.parseFloat value).
Proof.
  intros E. destruct (b64_run_speeds_nonneg es B64.mounted s E) as [Hs Hr].
  split; [|split].
  - apply Hs. reflexivity.
  - intros NI. apply Hr; [exact NI|reflexivity].
  - intros value.
    assert (R : B64.reachable s)
      by (apply b64_run_reachable with es B64.mounted;
          [apply b64_reachable_mounted|exact E]).
    destruct (b64_reachable_dispatch_total (ChangeReference value) s R) as [c D].
    eexists. split; [exact D|reflexivity].
Qed.

(** Fifty clicks on the speed minus button leave a residue of rounding
    above zero, the fifty-first floors it to 0; sixty-one clicks on the
    reference minus button reach 0 as well; and the entries 1e-400 and -1
    are stored as 0 and -1. *)
Lemma speeds_never_negative_binary64_witness :
  B64.run (repeat ClickSpeedMinus 50) B64.mounted =
    Ok (B64.stateAfter (repeat ClickSpeedMinus 50)) /\
  B64.nonneg (B64.speed (B64.stateAfter (repeat ClickSpeedMinus 50))) /\
  B64.speed (B64.stateAfter (repeat ClickSpeedMinus 50)) =
    S754_finite false 5207287069147136 (-102) /\
  B64.nonneg (B64.referenceSpeed (B64.stateAfter (repeat ClickSpeedMinus 50))) /\
  (exists s', B64.dispatch (ChangeReference "1e-400")
                           (B64.stateAfter (repeat ClickSpeedMinus 50)) = Ok s' /\
              B64.referenceSpeed s' = B64.lit 0) /\
  (exists s', B64.dispatch (ChangeReference "-1")
                           (B64.stateAfter (repeat ClickSpeedMinus 50)) = Ok s' /\
              B64.referenceSpeed s' = B64.lit (-1)).
Proof.
  assert (E : B64.run (repeat ClickSpeedMinus 50) B64.mounted =
              Ok (B64.stateAfter (repeat ClickSpeedMinus 50)))
    by (vm_compute; reflexivity).
  destruct (speeds_never_negative_binary64 _ _ E) as (Hs & Hr & F).
  split; [exact E|]. split; [exact Hs|].
  split; [vm_compute; reflexivity|].
  split; [|split].
  - apply Hr. intros value I. apply repeat_spec in I. discriminate I.
  - destruct (F "1e-400"%string) as (s1 & E1 & T1).
    exists s1. split; [exact E1|]. rewrite T1. vm_compute. reflexivity.
  - destruct (F "-1"%string) as (s2 & E2 & T2).
    exists s2. split; [exact E2|]. rewrite T2. vm_compute. reflexivity.
Defined.

End Binary64Controls.

(** * What is shown, over binary64 *)

Section Binary64Rendering.




(** The three operations of the target-time row on whole minutes, checked
    for every count of minutes from 1 to 1062. *)
Lemma b64_minutes_row_exact :
  forallb (fun k =>
             B64.same (B64.Math_max (B64.lit 60) (B64.lit (60 * k) - B64.lit 60)%b64)
                      (B64.lit (60 * Z.max 1 (k - 1))) &&
             B64.same (B64.lit (60 * k) + B64.lit 60)%b64 (B64.lit (60 * (k + 1))) &&
             B64.same (B64.lit (60 * k) / B64.lit 60)%b64 (B64.lit k))
          (B64.integersFrom 1 (Z.to_nat 1062)) = true.
Proof. vm_compute. reflexivity. Qed.

Lemma b64_minutes_row (k : Z) :
  (1 <= k <= 1062)%Z ->
  B64.Math_max (B64.lit 60) (B64.lit (60 * k) - B64.lit 60)%b64 =
    B64.lit (60 * Z.max 1 (k - 1)) /\
  (B64.lit (60 * k) + B64.lit 60)%b64 = B64.lit (60 * (k + 1)) /\
  (B64.lit (60 * k) / B64.lit 60)%b64 = B64.lit k.
Proof.
  intros K. pose proof b64_minutes_row_exact as C.
  rewrite forallb_forall in C.
  specialize (C k (b64_integersFrom_In 1 (Z.to_nat 1062) k ltac:(lia))). cbv beta in C.
  apply andb_true_iff in C. destruct C as [C C3].
  apply andb_true_iff in C. destruct C as [C1 C2].
  repeat split; now apply b64_same_eq.
Qed.

(** What one event other than a direct entry does to a target of [k] whole
    minutes. *)
Lemma b64_handler_target_minutes (e : event) (s : B64.State) (k : Z) :
  (forall value, e <> ChangeTarget value) ->
  (1 <= k <= 1062)%Z -> B64.targetTime s = B64.lit (60 * k) ->
  B64.targetTime (B64.handler e s) =
  B64.lit (60 * match e with
                | ClickTargetMinus => Z.max 1 (k - 1)
                | ClickTargetPlus => k + 1
                | _ => k
                end).
Proof.
  intros NE K T. destruct (b64_minutes_row k K) as (M & P & _).
  destruct e; fields64; try exact T.
  - unfold B64.interval. destruct (B64.isRunning s); fields64; exact T.
  - destruct (B64.isRunning s); fields64; exact T.
  - now rewrite T.
  - now elim (NE value).
  - now rewrite T.
Qed.

Lemma b64_run_target_minutes (es : list event) (s0 s : B64.State) (k0 : Z) :
  B64.run es s0 = Ok s -> (forall value, ~ In (ChangeTarget value) es) ->
  (1 <= k0)%Z -> (k0 + Z.of_nat (List.length es) <= 1062)%Z ->
  B64.targetTime s0 = B64.lit (60 * k0) ->
  exists k, (1 <= k <= k0 + Z.of_nat (List.length es))%Z /\
            B64.targetTime s = B64.lit (60 * k).
Proof.
  revert s0 k0. induction es as [|e es IH]; intros s0 k0; simpl List.length.
  - simpl. intros [= <-] _ K B T. exists k0. split; [lia|exact T].
  - cbn [B64.run].
    destruct (B64.dispatch e s0) as [s1|] eqn:D; simpl bind; [|discriminate].
    intros E NI K B T. apply b64_dispatch_inv in D. destruct D as (c & _ & ->).
    assert (NE : forall value, e <> ChangeTarget value)
      by (intros value ->; apply (NI value); now left).
    pose proof (b64_handler_target_minutes e s0 k0 NE ltac:(lia) T) as T1.
    set (k1 := match e with
               | ClickTargetMinus => Z.max 1 (k0 - 1)
               | ClickTargetPlus => (k0 + 1)%Z
               | _ => k0
               end) in T1.
    assert (K1 : (1 <= k1 <= k0 + 1)%Z) by (subst k1; destruct e; lia).
    destruct (IH _ k1 E) as (k & Kk & Tk).
    + intros value I. apply (NI value). now right.
    + lia.
    + lia.
    + exact T1.
    + exists k. split; [lia|exact Tk].
Qed.

(** X16: the target-time row stays in whole minutes: through at most
    1000 events that hold no direct entry of the target, the target is a
    whole number [k >= 1] of minutes, stored as the double [60 * k], and
    the field shows [k]; the - button takes it to the larger of 1 and
    [k - 1] minutes, the + button to [k + 1]. *)
Theorem target_row_whole_minutes_binary64 (es : list event) (s : B64.State) :
  B64.run es B64.mounted = Ok s ->
  (forall value, ~ In (ChangeTarget value) es) ->
  (Z.of_nat (List.length es) <= 1000)%Z ->
  exists k, (1 <= k <= 60 + Z.of_nat (List.length es))%Z /\
            B64.targetTime s = B64.lit (60 * k) /\
            B64.targetMinutesShown s = B64.lit k /\
            B64.targetMinutesShown (B64.handler ClickTargetMinus s) =
              B64.lit (Z.max 1 (k - 1)) /\
            B64.targetMinutesShown (B64.handler ClickTargetPlus s) =
              B64.lit (k + 1).
Proof.
  intros E NI L.
  destruct (b64_run_target_minutes es B64.mounted s 60 E NI) as (k & K & T);
    [lia|lia|reflexivity|].
  exists k. split; [exact K|]. split; [exact T|].
  unfold B64.targetMinutesShown.
  rewrite (b64_handler_target_minutes ClickTargetMinus s k)
    by (discriminate || assumption || lia).
  rewrite (b64_handler_target_minutes ClickTargetPlus s k)
    by (discriminate || assumption || lia).
  rewrite T.
  destruct (b64_minutes_row k) as (_ & _ & D0); [lia|].
  destruct (b64_minutes_row (Z.max 1 (k - 1))) as (_ & _ & D1); [lia|].
  destruct (b64_minutes_row (k + 1)) as (_ & _ & D2); [lia|].
  now rewrite D0, D1, D2.
Qed.

(** Seventy clicks on the - button after Start: some whole number of
    minutes, shown as such. *)
Lemma target_row_whole_minutes_binary64_witness :
  exists k,
    (1 <= k <= 60 + Z.of_nat (List.length
                                (ClickStartStop :: repeat ClickTargetMinus 70)))%Z /\
    B64.targetTime
      (B64.stateAfter (ClickStartStop :: repeat ClickTargetMinus 70)) =
      B64.lit (60 * k) /\
    B64.targetMinutesShown
      (B64.stateAfter (ClickStartStop :: repeat ClickTargetMinus 70)) = B64.lit k.
Proof.
  destruct (target_row_whole_minutes_binary64
              (ClickStartStop :: repeat ClickTargetMinus 70)
              (B64.stateAfter (ClickStartStop :: repeat ClickTargetMinus 70)))
    as (k & K & T & Sh & _).
  - vm_compute. reflexivity.
  - intros value [I|I]; [discriminate I|]. apply repeat_spec in I. discriminate I.
  - vm_compute. discriminate.
  - exists k. split; [exact K|]. split; [exact T|exact Sh].
Defined.

End Binary64Rendering.
